(** * The Instatus [component] resource of the Terraform provider

  A shallow embedding of [instatus/component_resource.go]: the schema
  declaration, the four CRUD handlers and the import handler, together
  with the small part of the host framework and of the API client that
  the handlers touch (attribute values, diagnostics, plan and state
  containers, the four client calls). *)

From Stdlib Require Import String List ZArith Bool.
Import ListNotations.

Local Open Scope list_scope.

(** ** Attribute values of the plugin framework ([types] package)

  A framework value is null, unknown or known.  The accessors below are
  the ones the resource calls; each follows the framework's documented
  behaviour: [ValueX] gives the zero value for null and unknown,
  [ValueXPointer] gives [nil] for null only, [XPointerValue nil] is
  null. *)

Module types.

Inductive Value (A : Type) : Type :=
| Null
| Unknown
| Known (a : A).
Arguments Null {A}.
Arguments Unknown {A}.
Arguments Known {A} a.

Definition String := Value string.
Definition Int64 := Value Z.
Definition Bool := Value bool.

Definition StringValue (s : string) : String := Known s.
Definition Int64Value (n : Z) : Int64 := Known n.
Definition BoolValue (b : bool) : Bool := Known b.

Definition StringPointerValue (p : option string) : String :=
  match p with None => Null | Some s => StringValue s end.
Definition Int64PointerValue (p : option Z) : Int64 :=
  match p with None => Null | Some n => Int64Value n end.
Definition BoolPointerValue (p : option bool) : Bool :=
  match p with None => Null | Some b => BoolValue b end.

Definition ValueString (v : String) : string :=
  match v with Known s => s | _ => EmptyString end.

Definition ValueStringPointer (v : String) : option string :=
  match v with Null => None | Unknown => Some EmptyString | Known s => Some s end.
Definition ValueInt64Pointer (v : Int64) : option Z :=
  match v with Null => None | Unknown => Some 0%Z | Known n => Some n end.
Definition ValueBoolPointer (v : Bool) : option bool :=
  match v with Null => None | Unknown => Some false | Known b => Some b end.

Definition IsNull {A} (v : Value A) : bool :=
  match v with Null => true | _ => false end.
Definition IsUnknown {A} (v : Value A) : bool :=
  match v with Unknown => true | _ => false end.

End types.

(** ** Diagnostics ([diag] package) *)

Module diag.

Inductive Severity : Type := SeverityError | SeverityWarning.

Record Diagnostic : Type := {
  Severity_ : Severity;
  Summary : string;
  Detail : string
}.

Definition NewErrorDiagnostic (summary detail : string) : Diagnostic :=
  {| Severity_ := SeverityError; Summary := summary; Detail := detail |}.
Definition NewWarningDiagnostic (summary detail : string) : Diagnostic :=
  {| Severity_ := SeverityWarning; Summary := summary; Detail := detail |}.

Definition Severity_eqb (a b : Severity) : bool :=
  match a, b with
  | SeverityError, SeverityError | SeverityWarning, SeverityWarning => true
  | _, _ => false
  end.

Definition Equal (a b : Diagnostic) : bool :=
  Severity_eqb (Severity_ a) (Severity_ b)
  && String.eqb (Summary a) (Summary b)
  && String.eqb (Detail a) (Detail b).

Definition Diagnostics := list Diagnostic.

Definition Contains (diags : Diagnostics) (d : Diagnostic) : bool :=
  existsb (Equal d) diags.

Definition HasError (diags : Diagnostics) : bool :=
  existsb (fun d => Severity_eqb (Severity_ d) SeverityError) diags.

(** [Append] skips a diagnostic the collection already holds. *)
Fixpoint Append (diags : Diagnostics) (new : list Diagnostic) : Diagnostics :=
  match new with
  | [] => diags
  | d :: rest => Append (if Contains diags d then diags else diags ++ [d]) rest
  end.

Definition AddError (diags : Diagnostics) (summary detail : string) : Diagnostics :=
  Append diags [NewErrorDiagnostic summary detail].
Definition AddWarning (diags : Diagnostics) (summary detail : string) : Diagnostics :=
  Append diags [NewWarningDiagnostic summary detail].

(** The error diagnostics of a collection, in order. *)
Definition Errors (diags : Diagnostics) : Diagnostics :=
  filter (fun d => Severity_eqb (Severity_ d) SeverityError) diags.

End diag.

(** ** The API client's data (Go package [is])

  The client library is an external collaborator; only the fields the
  resource reads or writes are kept.  The request body is the
  [is.Component] literal the handlers build (its [Group] is a name); the
  response is the component the service returns (its [Group] is an
  object with a [Name]). *)

Module Is.

(** Request body: [is.Component].  The handlers' literals leave [ID],
    [UniqueEmail] and [GroupID] at Go's zero value, [nil]. *)
Record Component : Type := {
  ID : option string;
  UniqueEmail : option string;
  Name : option string;
  Description : option string;
  Status : option string;
  Order : option Z;
  GroupID : option string;
  ShowUptime : option bool;
  Grouped : option bool;
  Group : option string
}.

Record ComponentGroup : Type := {
  GroupName : option string
}.

(** The component DTO a successful call returns: the fields of the
    request body, with the group as an object.  The handlers read all of
    them but [rGrouped]. *)
Record ComponentResponse : Type := {
  rID : option string;
  rUniqueEmail : option string;
  rName : option string;
  rDescription : option string;
  rStatus : option string;
  rOrder : option Z;
  rGroupID : option string;
  rShowUptime : option bool;
  rGrouped : option bool;
  rGroup : ComponentGroup
}.

(** Go's [error]: only its message is observed. *)
Record error : Type := { Error : string }.

(** One record per call the resource can make on the client. *)
Inductive Call : Type :=
| CallCreateComponent (pageID : string) (item : Component)
| CallGetComponent (pageID componentID : string)
| CallUpdateComponent (pageID componentID : string) (item : Component)
| CallDeleteComponent (pageID componentID : string).

(** The client against a remote service whose state has type [Remote]:
    a call returns a DTO or an error and may change the service. *)
Record Client (Remote : Type) : Type := {
  CreateComponent : string -> Component -> Remote -> (ComponentResponse + error) * Remote;
  GetComponent : string -> string -> Remote -> (ComponentResponse + error) * Remote;
  UpdateComponent : string -> string -> Component -> Remote -> (ComponentResponse + error) * Remote;
  DeleteComponent : string -> string -> Remote -> option error * Remote
}.
Arguments CreateComponent {Remote} _ _ _ _.
Arguments GetComponent {Remote} _ _ _ _.
Arguments UpdateComponent {Remote} _ _ _ _ _.
Arguments DeleteComponent {Remote} _ _ _ _.

End Is.

(** ** The resource model *)

(** [componentResourceModel] maps the resource schema data. *)
Record componentResourceModel : Type := {
  ID : types.String;
  UniqueEmail : types.String;
  Name : types.String;
  PageID : types.String;
  Description : types.String;
  Status : types.String;
  Order : types.Int64;
  GroupID : types.String;
  ShowUptime : types.Bool;
  Grouped : types.Bool;
  Group : types.String;
  LastUpdated : types.String
}.

(** ** Plan and state containers ([tfsdk] package)

  [Get] decodes the container into the model and reports diagnostics;
  [Set] stores a model, which for a model of the schema's own shape
  reports nothing. *)

Module tfsdk.

Record Plan : Type := {
  Plan_Raw : componentResourceModel;
  Plan_Get_diags : diag.Diagnostics
}.

Record State : Type := {
  State_Raw : componentResourceModel;
  State_Get_diags : diag.Diagnostics
}.

Definition Plan_Get (p : Plan) : componentResourceModel * diag.Diagnostics :=
    (Plan_Raw p, Plan_Get_diags p).

Definition State_Get (s : State) : componentResourceModel * diag.Diagnostics :=
    (State_Raw s, State_Get_diags s).

Definition State_Set (s : State) (m : componentResourceModel) : State * diag.Diagnostics :=
    ({| State_Raw := m; State_Get_diags := State_Get_diags s |}, []).

End tfsdk.

(** ** Requests and responses of the resource interface *)

Module resource.

Record CreateRequest : Type := { CreateRequest_Plan : tfsdk.Plan }.
Record ReadRequest : Type := { ReadRequest_State : tfsdk.State }.
Record UpdateRequest : Type := { UpdateRequest_Plan : tfsdk.Plan }.
Record DeleteRequest : Type := { DeleteRequest_State : tfsdk.State }.
Record ImportStateRequest : Type := { ImportStateRequest_ID : string }.

(** The four CRUD responses and the import response have the same two
    fields the handlers use, so one record serves for all. *)
Record Response : Type := {
  State : tfsdk.State;
  Diagnostics : diag.Diagnostics
}.

Definition with_Diagnostics (resp : Response) (d : diag.Diagnostics) : Response :=
  {| State := State resp; Diagnostics := d |}.
Definition with_State (resp : Response) (s : tfsdk.State) : Response :=
  {| State := s; Diagnostics := Diagnostics resp |}.

End resource.

(** ** The world the handlers run in

    The remote service behind the client, the log of calls made on the
    client, and the wall clock read by [time.Now]. *)

Section World.

Variable Remote : Type.
Variable Time : Type.

Record World : Type := {
  remote : Remote;
  calls : list Is.Call;
  now : Time
}.

(** A computation that reads and changes the world. *)
Definition M (A : Type) : Type := World -> A * World.

Definition ret {A} (a : A) : M A := fun w => (a, w).
Definition bind {A B} (m : M A) (k : A -> M B) : M B :=
  fun w => let (a, w') := m w in k a w'.

Definition time_Now : M Time := fun w => (now w, w).

(** Run a client call: log it and let the service answer. *)
Definition invoke {A} (c : Is.Call) (f : Remote -> A * Remote) : M A :=
  fun w =>
    let (a, r') := f (remote w) in
    (a, {| remote := r'; calls := calls w ++ [c]; now := now w |}).

End World.

Arguments remote {Remote Time} _.
Arguments calls {Remote Time} _.
Arguments now {Remote Time} _.
Arguments ret {Remote Time A} _ _.
Arguments bind {Remote Time A B} _ _ _.
Arguments time_Now {Remote Time} _.
Arguments invoke {Remote Time A} _ _ _.

Declare Scope world_scope.
Delimit Scope world_scope with world.
Notation "x <- m ;; k" := (bind m (fun x => k))
  (at level 61, m at next level, right associativity) : world_scope.

(** ** The resource handlers *)

Section Resource.

Variable Remote : Type.
Variable Time : Type.

(** [t.Format(time.RFC850)]: the rendering of a clock reading. *)
Variable Format_RFC850 : Time -> string.

(** [componentResource] is the resource implementation. *)
Record componentResource : Type := {
  client : Is.Client Remote
}.

Local Open Scope world_scope.

Import resource.

(** The request body both [Create] and [Update] build from the plan. *)
Definition item_of_plan (plan : componentResourceModel) : Is.Component :=
  {| Is.ID := None;
     Is.UniqueEmail := None;
     Is.Name := types.ValueStringPointer (Name plan);
     Is.Description := types.ValueStringPointer (Description plan);
     Is.Status := types.ValueStringPointer (Status plan);
     Is.Order := types.ValueInt64Pointer (Order plan);
     Is.GroupID := None;
     Is.ShowUptime := types.ValueBoolPointer (ShowUptime plan);
     Is.Grouped := types.ValueBoolPointer (Grouped plan);
     Is.Group := types.ValueStringPointer (Group plan) |}.

(** The assignments [Create] and [Update] make to the plan once the
    service has answered: the same six fields in both handlers. *)
Definition plan_with_response (plan : componentResourceModel)
    (component : Is.ComponentResponse) (t : Time) : componentResourceModel :=
  {| ID := types.StringPointerValue (Is.rID component);
     UniqueEmail := types.StringPointerValue (Is.rUniqueEmail component);
     Name := Name plan;
     PageID := PageID plan;
     Description := Description plan;
     Status := Status plan;
     Order := types.Int64PointerValue (Is.rOrder component);
     GroupID := types.StringPointerValue (Is.rGroupID component);
     ShowUptime := ShowUptime plan;
     Grouped := Grouped plan;
     Group := types.StringPointerValue (Is.GroupName (Is.rGroup component));
     LastUpdated := types.StringValue (Format_RFC850 t) |}.

(** The assignments [Read] makes to the state it has decoded. *)
Definition state_with_response (state : componentResourceModel)
    (component : Is.ComponentResponse) : componentResourceModel :=
  {| ID := ID state;
     UniqueEmail := types.StringPointerValue (Is.rUniqueEmail component);
     Name := types.StringPointerValue (Is.rName component);
     PageID := PageID state;
     Description := types.StringPointerValue (Is.rDescription component);
     Status := types.StringPointerValue (Is.rStatus component);
     Order := types.Int64PointerValue (Is.rOrder component);
     GroupID := types.StringPointerValue (Is.rGroupID component);
     ShowUptime := types.BoolPointerValue (Is.rShowUptime component);
     Grouped := types.BoolValue
                  (match Is.GroupName (Is.rGroup component) with
                   | Some _ => true
                   | None => false
                   end);
     Group := types.StringPointerValue (Is.GroupName (Is.rGroup component));
     LastUpdated := LastUpdated state |}.

(** [resp.State.Set(ctx, m)] followed by [resp.Diagnostics.Append(diags...)]. *)
Definition set_state (resp : Response) (m : componentResourceModel) : Response :=
  let (s, diags) := tfsdk.State_Set (State resp) m in
  with_Diagnostics (with_State resp s) (diag.Append (Diagnostics resp) diags).

(** [Create] creates the resource and sets the initial Terraform state. *)
Definition Create (r : componentResource) (req : CreateRequest) (resp : Response)
    : M Remote Time Response :=
  let (plan, diags) := tfsdk.Plan_Get (CreateRequest_Plan req) in
  let resp := with_Diagnostics resp (diag.Append (Diagnostics resp) diags) in
  if diag.HasError (Diagnostics resp) then ret resp
  else
    let item := item_of_plan plan in
    let pageID := types.ValueString (PageID plan) in
    res <- invoke (Is.CallCreateComponent pageID item)
                  (Is.CreateComponent (client r) pageID item) ;;
    match res with
    | inr err =>
        ret (with_Diagnostics resp
               (diag.AddError (Diagnostics resp)
                  "Error creating component"
                  ("Could not create component, unexpected error: " ++ Is.Error err)%string))
    | inl component =>
        t <- time_Now ;;
        ret (set_state resp (plan_with_response plan component t))
    end.

(** [Read] refreshes the Terraform state with the latest data. *)
Definition Read (r : componentResource) (req : ReadRequest) (resp : Response)
    : M Remote Time Response :=
  let (state, diags) := tfsdk.State_Get (ReadRequest_State req) in
  let resp := with_Diagnostics resp (diag.Append (Diagnostics resp) diags) in
  if diag.HasError (Diagnostics resp) then ret resp
  else
    let pageID := types.ValueString (PageID state) in
    let id := types.ValueString (ID state) in
    res <- invoke (Is.CallGetComponent pageID id)
                  (Is.GetComponent (client r) pageID id) ;;
    match res with
    | inr err =>
        ret (with_Diagnostics resp
               (diag.AddError (Diagnostics resp)
                  "Error Reading Instatus Component"
                  ((("Could not read Instatus component ID " ++ id) ++ ": ") ++ Is.Error err)%string))
    | inl component =>
        ret (set_state resp (state_with_response state component))
    end.

(** [Update] updates the resource and sets the updated Terraform state
    on success. *)
Definition Update (r : componentResource) (req : UpdateRequest) (resp : Response)
    : M Remote Time Response :=
  let (plan, diags) := tfsdk.Plan_Get (UpdateRequest_Plan req) in
  let resp := with_Diagnostics resp (diag.Append (Diagnostics resp) diags) in
  if diag.HasError (Diagnostics resp) then ret resp
  else
    let item := item_of_plan plan in
    let pageID := types.ValueString (PageID plan) in
    let id := types.ValueString (ID plan) in
    res <- invoke (Is.CallUpdateComponent pageID id item)
                  (Is.UpdateComponent (client r) pageID id item) ;;
    match res with
    | inr err =>
        ret (with_Diagnostics resp
               (diag.AddError (Diagnostics resp)
                  "Error Updating Instatus Component"
                  ("Could not update component, unexpected error: " ++ Is.Error err)%string))
    | inl component =>
        let groupName :=
          types.ValueString (types.StringPointerValue (Is.GroupName (Is.rGroup component))) in
        let resp := with_Diagnostics resp
                      (diag.AddWarning (Diagnostics resp)
                         ("Group name : " ++ groupName)%string groupName) in
        t <- time_Now ;;
        ret (set_state resp (plan_with_response plan component t))
    end.

(** [Delete] deletes the resource; the framework removes the Terraform
    state when the handler reports no error. *)
Definition Delete (r : componentResource) (req : DeleteRequest) (resp : Response)
    : M Remote Time Response :=
  let (state, diags) := tfsdk.State_Get (DeleteRequest_State req) in
  let resp := with_Diagnostics resp (diag.Append (Diagnostics resp) diags) in
  if diag.HasError (Diagnostics resp) then ret resp
  else
    let pageID := types.ValueString (PageID state) in
    let id := types.ValueString (ID state) in
    res <- invoke (Is.CallDeleteComponent pageID id)
                  (Is.DeleteComponent (client r) pageID id) ;;
    match res with
    | Some err =>
        ret (with_Diagnostics resp
               (diag.AddError (Diagnostics resp)
                  "Error Deleting Instatus Component"
                  ("Could not delete component, unexpected error: " ++ Is.Error err)%string))
    | None => ret resp
    end.

End Resource.

Arguments client {Remote} _.
Arguments Create {Remote Time} Format_RFC850 r req resp _.
Arguments Read {Remote Time} r req resp _.
Arguments Update {Remote Time} Format_RFC850 r req resp _.
Arguments Delete {Remote Time} r req resp _.
Arguments plan_with_response {Time} Format_RFC850 plan component t.

(** ** Import by identifier *)

Module path.

Inductive Path : Type :=
| Empty
| Root (name : string).

Definition Equal (p q : Path) : bool :=
  match p, q with
  | Empty, Empty => true
  | Root a, Root b => String.eqb a b
  | _, _ => false
  end.

End path.

(** [State.SetAttribute] with a Go string as the value: the string
    attribute at the path takes the value and every other attribute keeps
    what it had; a path to no attribute, or to one that is not a string,
    is reported and changes nothing. *)
Definition State_SetAttribute (s : tfsdk.State) (p : path.Path) (val : string)
    : tfsdk.State * diag.Diagnostics :=
  let m := tfsdk.State_Raw s in
  let v := types.StringValue val in
  let put (m' : componentResourceModel) : tfsdk.State * diag.Diagnostics :=
    ({| tfsdk.State_Raw := m'; tfsdk.State_Get_diags := tfsdk.State_Get_diags s |}, []) in
  let upd (id ue nm pg de st gi gr lu : types.String) :=
    put {| ID := id; UniqueEmail := ue; Name := nm; PageID := pg; Description := de;
           Status := st; Order := Order m; GroupID := gi; ShowUptime := ShowUptime m;
           Grouped := Grouped m; Group := gr; LastUpdated := lu |} in
  match p with
  | path.Empty =>
      (s, [diag.NewErrorDiagnostic "State Write Error" "empty attribute path"])
  | path.Root name =>
      if String.eqb name "id" then
        upd v (UniqueEmail m) (Name m) (PageID m) (Description m) (Status m) (GroupID m) (Group m) (LastUpdated m)
      else if String.eqb name "unique_email" then
        upd (ID m) v (Name m) (PageID m) (Description m) (Status m) (GroupID m) (Group m) (LastUpdated m)
      else if String.eqb name "name" then
        upd (ID m) (UniqueEmail m) v (PageID m) (Description m) (Status m) (GroupID m) (Group m) (LastUpdated m)
      else if String.eqb name "page_id" then
        upd (ID m) (UniqueEmail m) (Name m) v (Description m) (Status m) (GroupID m) (Group m) (LastUpdated m)
      else if String.eqb name "description" then
        upd (ID m) (UniqueEmail m) (Name m) (PageID m) v (Status m) (GroupID m) (Group m) (LastUpdated m)
      else if String.eqb name "status" then
        upd (ID m) (UniqueEmail m) (Name m) (PageID m) (Description m) v (GroupID m) (Group m) (LastUpdated m)
      else if String.eqb name "group_id" then
        upd (ID m) (UniqueEmail m) (Name m) (PageID m) (Description m) (Status m) v (Group m) (LastUpdated m)
      else if String.eqb name "group" then
        upd (ID m) (UniqueEmail m) (Name m) (PageID m) (Description m) (Status m) (GroupID m) v (LastUpdated m)
      else if String.eqb name "last_updated" then
        upd (ID m) (UniqueEmail m) (Name m) (PageID m) (Description m) (Status m) (GroupID m) (Group m) v
      else
        (s, [diag.NewErrorDiagnostic "State Write Error" name])
  end.

(** [resource.ImportStatePassthroughID]: an empty path is reported as an
    error; in every case the import identifier is then written at the
    path and the diagnostics of that write are appended. *)
Definition ImportStatePassthroughID (attrPath : path.Path)
    (req : resource.ImportStateRequest) (resp : resource.Response) : resource.Response :=
  let resp :=
    if path.Equal attrPath path.Empty then
      resource.with_Diagnostics resp
        (diag.AddError (resource.Diagnostics resp)
           "Resource Import Passthrough Missing Attribute Path"
           ("This is always an error in the provider. Please report the following to the provider developer:"
              ++ String (Ascii.ascii_of_nat 10) (String (Ascii.ascii_of_nat 10)
                   "Resource ImportState method call to ImportStatePassthroughID path must be set to a valid attribute path that can accept a string value."))%string)
    else resp in
  let (s, diags) :=
    State_SetAttribute (resource.State resp) attrPath (resource.ImportStateRequest_ID req) in
  resource.with_Diagnostics (resource.with_State resp s)
    (diag.Append (resource.Diagnostics resp) diags).

(** [ImportState] retrieves the import ID and saves it to the id attribute. *)
Definition ImportState (req : resource.ImportStateRequest) (resp : resource.Response)
    : resource.Response :=
  ImportStatePassthroughID (path.Root "id") req resp.

(** ** The schema *)

Module schema.

Inductive AttributeType : Type := StringAttribute | Int64Attribute | BoolAttribute.

Inductive PlanModifier : Type := UseStateForUnknown.

(** [stringvalidator.OneOf(values...)]. *)
Inductive Validator : Type := OneOf (values : list string).

(** [booldefault.StaticBool(b)]. *)
Inductive Default : Type := StaticBool (b : bool).

(** One attribute declaration; a field the Go literal leaves out holds
    Go's zero value ([false], no modifiers, no validators, no default). *)
Record Attribute : Type := {
  Type_ : AttributeType;
  Description : string;
  Required : bool;
  Optional : bool;
  Computed : bool;
  PlanModifiers : list PlanModifier;
  Validators : list Validator;
  Default_ : option Default
}.

Record Schema : Type := {
  Schema_Description : string;
  Attributes : list (string * Attribute)
}.

Fixpoint lookup (name : string) (attrs : list (string * Attribute)) : option Attribute :=
  match attrs with
  | [] => None
  | (k, a) :: rest => if String.eqb k name then Some a else lookup name rest
  end.

(** A validator run on a configured string: [OneOf] skips null and
    unknown values and otherwise asks for an exact match with one of its
    values.  [true] means no error is reported. *)
Definition Validate (v : Validator) (value : types.String) : bool :=
  match v with
  | OneOf values =>
      match value with
      | types.Known s => existsb (String.eqb s) values
      | _ => true
      end
  end.

(** The framework runs every validator of the attribute. *)
Definition ValidateAttribute (a : Attribute) (value : types.String) : bool :=
  forallb (fun v => Validate v value) (Validators a).

(** The framework's default rule for a bool attribute: a null
    configuration value is replaced by the declared default. *)
Definition PlanBool (a : Attribute) (config : types.Bool) : types.Bool :=
  match config, Default_ a with
  | types.Null, Some (StaticBool b) => types.BoolValue b
  | _, _ => config
  end.

End schema.

Definition componentStatuses : list string :=
  ["OPERATIONAL"; "UNDERMAINTENANCE"; "DEGRADEDPERFORMANCE"; "PARTIALOUTAGE"; "MAJOROUTAGE"]%string.

(** [Schema] defines the schema for the resource. *)
Definition Schema : schema.Schema :=
  let attr t d req opt comp pm va df :=
    {| schema.Type_ := t; schema.Description := d; schema.Required := req;
       schema.Optional := opt; schema.Computed := comp; schema.PlanModifiers := pm;
       schema.Validators := va; schema.Default_ := df |} in
  {| schema.Schema_Description := "Manages a component.";
     schema.Attributes :=
       [ ("id"%string,
          attr schema.StringAttribute "String Identifier of the component."%string
               false false true [schema.UseStateForUnknown] [] None);
         ("unique_email"%string,
          attr schema.StringAttribute "Unique email generated by Instatus for the component."%string
               false false true [] [] None);
         ("last_updated"%string,
          attr schema.StringAttribute "Timestamp of the last Terraform update of the component."%string
               false false true [] [] None);
         ("page_id"%string,
          attr schema.StringAttribute "String Identifier of the page of the component."%string
               true false false [] [] None);
         ("name"%string,
          attr schema.StringAttribute "Name of the component."%string
               true false false [] [] None);
         ("description"%string,
          attr schema.StringAttribute "Description of the component."%string
               false true false [] [] None);
         ("status"%string,
          attr schema.StringAttribute
               ("Status of the component. One of: ("
                  ++ String.concat ", " componentStatuses ++ ").")%string
               false true false [] [schema.OneOf componentStatuses] None);
         ("order"%string,
          attr schema.Int64Attribute "Order in the page of the component."%string
               false true true [] [] None);
         ("group_id"%string,
          attr schema.StringAttribute "String Identifier of the parent group of the component."%string
               false false true [] [] None);
         ("show_uptime"%string,
          attr schema.BoolAttribute "Whether show uptime is enabled in the component."%string
               false true false [] [] None);
         ("grouped"%string,
          attr schema.BoolAttribute
               "Whether the component is in a group (Require group set to desired name when true)."%string
               false true true [] [] (Some (schema.StaticBool false)));
         ("group"%string,
          attr schema.StringAttribute
               "Name of the group for the component (Require grouped set to true)."%string
               false true false [] [] None) ] |}.

(** What the framework does with a configured [status]: run the
    attribute's validators. *)
Definition validate_status (config : types.String) : bool :=
  match schema.lookup "status" (schema.Attributes Schema) with
  | Some a => schema.ValidateAttribute a config
  | None => true
  end.

(** The planned [grouped] for a configured one: apply the attribute's
    default. *)
Definition plan_grouped (config : types.Bool) : types.Bool :=
  match schema.lookup "grouped" (schema.Attributes Schema) with
  | Some a => schema.PlanBool a config
  | None => config
  end.

(** ** The four CRUD operations, seen uniformly

    Each handler decodes one model, makes one client call built from it
    and then reports.  The definitions below name these parts so that a
    property of all four handlers is one statement. *)

Inductive Operation : Type :=
| OpCreate (req : resource.CreateRequest)
| OpRead (req : resource.ReadRequest)
| OpUpdate (req : resource.UpdateRequest)
| OpDelete (req : resource.DeleteRequest).

(** The model the handler decodes from its request. *)
Definition decoded (op : Operation) : componentResourceModel :=
  match op with
  | OpCreate req => tfsdk.Plan_Raw (resource.CreateRequest_Plan req)
  | OpRead req => tfsdk.State_Raw (resource.ReadRequest_State req)
  | OpUpdate req => tfsdk.Plan_Raw (resource.UpdateRequest_Plan req)
  | OpDelete req => tfsdk.State_Raw (resource.DeleteRequest_State req)
  end.

(** The diagnostics of that decoding. *)
Definition decode_diags (op : Operation) : diag.Diagnostics :=
  match op with
  | OpCreate req => tfsdk.Plan_Get_diags (resource.CreateRequest_Plan req)
  | OpRead req => tfsdk.State_Get_diags (resource.ReadRequest_State req)
  | OpUpdate req => tfsdk.Plan_Get_diags (resource.UpdateRequest_Plan req)
  | OpDelete req => tfsdk.State_Get_diags (resource.DeleteRequest_State req)
  end.

(** [true] for the two handlers that work from a plan. *)
Definition from_plan (op : Operation) : bool :=
  match op with
  | OpCreate _ | OpUpdate _ => true
  | OpRead _ | OpDelete _ => false
  end.

Section Operations.

Variable Remote : Type.
Variable Time : Type.
Variable Format_RFC850 : Time -> string.

Definition run (r : componentResource Remote) (op : Operation) (resp : resource.Response)
    : M Remote Time resource.Response :=
  match op with
  | OpCreate req => Create Format_RFC850 r req resp
  | OpRead req => Read r req resp
  | OpUpdate req => Update Format_RFC850 r req resp
  | OpDelete req => Delete r req resp
  end.

(** What the service answers to a call, in one shape for the four calls:
    a DTO ([DeleteComponent] has none) or an error. *)
Definition perform (c : Is.Client Remote) (call : Is.Call) (rem : Remote)
    : (option Is.ComponentResponse + Is.error) * Remote :=
  let dto (a : (Is.ComponentResponse + Is.error) * Remote) :=
    (match fst a with inl x => inl (Some x) | inr e => inr e end, snd a) in
  match call with
  | Is.CallCreateComponent pageID item => dto (Is.CreateComponent c pageID item rem)
  | Is.CallGetComponent pageID id => dto (Is.GetComponent c pageID id rem)
  | Is.CallUpdateComponent pageID id item => dto (Is.UpdateComponent c pageID id item rem)
  | Is.CallDeleteComponent pageID id =>
      let a := Is.DeleteComponent c pageID id rem in
      (match fst a with None => inl None | Some e => inr e end, snd a)
  end.

End Operations.

Arguments run {Remote Time} Format_RFC850 r op resp _.
Arguments perform {Remote} c call rem.

(** The call a handler makes once its model is decoded. *)
Definition client_call (op : Operation) : Is.Call :=
  let m := decoded op in
  match op with
  | OpCreate _ =>
      Is.CallCreateComponent (types.ValueString (PageID m)) (item_of_plan m)
  | OpRead _ =>
      Is.CallGetComponent (types.ValueString (PageID m)) (types.ValueString (ID m))
  | OpUpdate _ =>
      Is.CallUpdateComponent (types.ValueString (PageID m)) (types.ValueString (ID m))
        (item_of_plan m)
  | OpDelete _ =>
      Is.CallDeleteComponent (types.ValueString (PageID m)) (types.ValueString (ID m))
  end.

(** The response diagnostics once the decoding diagnostics are appended. *)
Definition after_decode (op : Operation) (resp : resource.Response) : diag.Diagnostics :=
  diag.Append (resource.Diagnostics resp) (decode_diags op).

(** The world after the one client call of [op]. *)
Definition called {Remote Time : Type} (op : Operation) (w : World Remote Time)
    (rem' : Remote) : World Remote Time :=
  {| remote := rem'; calls := calls w ++ [client_call op]; now := now w |}.

(** The summary of the error diagnostic each handler reports. *)
Definition error_summary (op : Operation) : string :=
  match op with
  | OpCreate _ => "Error creating component"
  | OpRead _ => "Error Reading Instatus Component"
  | OpUpdate _ => "Error Updating Instatus Component"
  | OpDelete _ => "Error Deleting Instatus Component"
  end.

(** What precedes the collaborator's message in the detail. *)
Definition error_prefix (op : Operation) : string :=
  match op with
  | OpCreate _ => "Could not create component, unexpected error: "
  | OpRead _ =>
      ("Could not read Instatus component ID "
         ++ types.ValueString (ID (decoded op))) ++ ": "
  | OpUpdate _ => "Could not update component, unexpected error: "
  | OpDelete _ => "Could not delete component, unexpected error: "
  end.

(** The request body a call carries, if it carries one. *)
Definition sent_item (c : Is.Call) : option Is.Component :=
  match c with
  | Is.CallCreateComponent _ item | Is.CallUpdateComponent _ _ item => Some item
  | Is.CallGetComponent _ _ | Is.CallDeleteComponent _ _ => None
  end.

(** The response a handler leaves once the service has answered its call
    with [component] ([Delete] has no component to use) at clock reading
    [t]: the success branch of each handler. *)
Definition answered {Time : Type} (Format_RFC850 : Time -> string) (op : Operation)
    (resp : resource.Response) (component : option Is.ComponentResponse) (t : Time)
    : resource.Response :=
  let resp := resource.with_Diagnostics resp (after_decode op resp) in
  match op, component with
  | OpCreate _, Some c =>
      set_state resp (plan_with_response Format_RFC850 (decoded op) c t)
  | OpRead _, Some c =>
      set_state resp (state_with_response (decoded op) c)
  | OpUpdate _, Some c =>
      let groupName :=
        types.ValueString (types.StringPointerValue (Is.GroupName (Is.rGroup c))) in
      set_state
        (resource.with_Diagnostics resp
           (diag.AddWarning (resource.Diagnostics resp)
              ("Group name : " ++ groupName)%string groupName))
        (plan_with_response Format_RFC850 (decoded op) c t)
  | _, _ => resp
  end.

(** An answer of the right shape for the handler: a DTO for [Create],
    [Read] and [Update], none for [Delete]. *)
Definition fits (op : Operation) (component : option Is.ComponentResponse) : bool :=
  match op, component with
  | OpDelete _, None => true
  | OpDelete _, Some _ => false
  | _, Some _ => true
  | _, None => false
  end.

(** ** Sample collaborators

    A service that answers every call with one fixed component, and one
    that fails every call with one fixed message; a clock rendering. *)

Definition answering (component : Is.ComponentResponse) : componentResource unit :=
  {| client :=
       {| Is.CreateComponent := fun _ _ rem => (inl component, rem);
          Is.GetComponent := fun _ _ rem => (inl component, rem);
          Is.UpdateComponent := fun _ _ _ rem => (inl component, rem);
          Is.DeleteComponent := fun _ _ rem => (None, rem) |} |}.

Definition failing (message : string) : componentResource unit :=
  let err := {| Is.Error := message |} in
  {| client :=
       {| Is.CreateComponent := fun _ _ rem => (inr err, rem);
          Is.GetComponent := fun _ _ rem => (inr err, rem);
          Is.UpdateComponent := fun _ _ _ rem => (inr err, rem);
          Is.DeleteComponent := fun _ _ rem => (Some err, rem) |} |}.

Definition sample_format (t : Z) : string :=
  if Z.eqb t 0 then "Thursday, 01-Jan-70 00:00:00 UTC"%string
  else "Saturday, 31-Oct-26 10:00:00 UTC"%string.

Definition sample_world : World unit Z :=
  {| remote := tt; calls := []; now := 1793440800%Z |}.

Definition sample_plan : componentResourceModel :=
  {| ID := types.Unknown;
     UniqueEmail := types.Unknown;
     Name := types.StringValue "api";
     PageID := types.StringValue "page-1";
     Description := types.Null;
     Status := types.StringValue "OPERATIONAL";
     Order := types.Unknown;
     GroupID := types.Unknown;
     ShowUptime := types.BoolValue true;
     Grouped := types.BoolValue false;
     Group := types.Null;
     LastUpdated := types.Unknown |}.

(** The same plan with [grouped] configured as [true]. *)
Definition sample_plan_grouped : componentResourceModel :=
  {| ID := ID sample_plan;
     UniqueEmail := UniqueEmail sample_plan;
     Name := Name sample_plan;
     PageID := PageID sample_plan;
     Description := Description sample_plan;
     Status := Status sample_plan;
     Order := Order sample_plan;
     GroupID := GroupID sample_plan;
     ShowUptime := ShowUptime sample_plan;
     Grouped := types.BoolValue true;
     Group := types.StringValue "core";
     LastUpdated := LastUpdated sample_plan |}.

(** The same plan as [sample_plan] with [order] configured as zero. *)
Definition sample_plan_order_zero : componentResourceModel :=
  {| ID := ID sample_plan;
     UniqueEmail := UniqueEmail sample_plan;
     Name := Name sample_plan;
     PageID := PageID sample_plan;
     Description := Description sample_plan;
     Status := Status sample_plan;
     Order := types.Int64Value 0;
     GroupID := GroupID sample_plan;
     ShowUptime := ShowUptime sample_plan;
     Grouped := Grouped sample_plan;
     Group := Group sample_plan;
     LastUpdated := LastUpdated sample_plan |}.

Definition sample_component : Is.ComponentResponse :=
  {| Is.rID := Some "cmp-7"%string;
     Is.rUniqueEmail := Some "component+7@instatus.example"%string;
     Is.rName := Some "API gateway"%string;
     Is.rDescription := Some "Public API"%string;
     Is.rStatus := Some "MAJOROUTAGE"%string;
     Is.rOrder := Some 3%Z;
     Is.rGroupID := Some "grp-2"%string;
     Is.rShowUptime := Some false;
     Is.rGrouped := Some true;
     Is.rGroup := {| Is.GroupName := Some "core"%string |} |}.

Definition sample_state : componentResourceModel :=
  {| ID := types.StringValue "cmp-7";
     UniqueEmail := types.StringValue "old@instatus.example";
     Name := types.StringValue "api";
     PageID := types.StringValue "page-1";
     Description := types.Null;
     Status := types.StringValue "OPERATIONAL";
     Order := types.Int64Value 1;
     GroupID := types.Null;
     ShowUptime := types.BoolValue true;
     Grouped := types.BoolValue false;
     Group := types.Null;
     LastUpdated := types.StringValue "Friday, 30-Oct-26 09:00:00 UTC" |}.

Definition null_model : componentResourceModel :=
  {| ID := types.Null; UniqueEmail := types.Null; Name := types.Null;
     PageID := types.Null; Description := types.Null; Status := types.Null;
     Order := types.Null; GroupID := types.Null; ShowUptime := types.Null;
     Grouped := types.Null; Group := types.Null; LastUpdated := types.Null |}.

Definition response_with (m : componentResourceModel) : resource.Response :=
  {| resource.State := {| tfsdk.State_Raw := m; tfsdk.State_Get_diags := [] |};
     resource.Diagnostics := [] |}.

Definition plan_of (m : componentResourceModel) : tfsdk.Plan :=
  {| tfsdk.Plan_Raw := m; tfsdk.Plan_Get_diags := [] |}.

Definition state_of (m : componentResourceModel) : tfsdk.State :=
  {| tfsdk.State_Raw := m; tfsdk.State_Get_diags := [] |}.

(** ** Metadata, construction and configuration *)

Record MetadataRequest : Type := { ProviderTypeName : string }.
Record MetadataResponse : Type := { TypeName : string }.

(** [Metadata] returns the resource type name. *)
Definition Metadata (req : MetadataRequest) (resp : MetadataResponse) : MetadataResponse :=
  {| TypeName := (ProviderTypeName req ++ "_component")%string |}.

Section Configuration.

Variable Remote : Type.

(** The resource as a Go value: its [client] pointer may be nil. *)
Record resourceValue : Type := {
  client_pointer : option (Is.Client Remote)
}.

(** [req.ProviderData], of Go type [any]: the nil interface, a
    [*is.Client] (itself possibly a nil pointer), or a value of another
    type. *)
Inductive ProviderData : Type :=
| ProviderData_nil
| ProviderData_Client (c : option (Is.Client Remote))
| ProviderData_other.

(** [NewComponentResource] is a helper function to simplify the provider
    implementation. *)
Definition NewComponentResource : resourceValue :=
  {| client_pointer := None |}.

(** [Configure] adds the provider configured client to the resource.
    [None] is the panic of the type assertion on a value that is not a
    [*is.Client]. *)
Definition Configure (r : resourceValue) (data : ProviderData) : option resourceValue :=
  match data with
  | ProviderData_nil => Some r
  | ProviderData_Client c => Some {| client_pointer := c |}
  | ProviderData_other => None
  end.

(** The framework may call [Configure] several times; a panic ends the
    sequence. *)
Fixpoint Configure_all (r : resourceValue) (datas : list ProviderData)
    : option resourceValue :=
  match datas with
  | [] => Some r
  | data :: rest =>
      match Configure r data with
      | Some r' => Configure_all r' rest
      | None => None
      end
  end.

(** The client pointer carried by the last provider data that is not the
    nil interface, [fallback] if there is none. *)
Fixpoint last_client (fallback : option (Is.Client Remote)) (datas : list ProviderData)
    : option (Is.Client Remote) :=
  match datas with
  | [] => fallback
  | ProviderData_Client c :: rest => last_client c rest
  | _ :: rest => last_client fallback rest
  end.

Definition is_other (data : ProviderData) : bool :=
  match data with ProviderData_other => true | _ => false end.

End Configuration.

Arguments client_pointer {Remote} _.
Arguments ProviderData_nil {Remote}.
Arguments ProviderData_Client {Remote} c.
Arguments ProviderData_other {Remote}.
Arguments NewComponentResource {Remote}.
Arguments Configure {Remote} r data.
Arguments Configure_all {Remote} r datas.
Arguments last_client {Remote} fallback datas.
Arguments is_other {Remote} data.

(** ** The model's fields against the schema *)

(** The [tfsdk] tags of [componentResourceModel] with the kind of value
    each field holds. *)
Definition componentResourceModel_fields : list (string * schema.AttributeType) :=
  [ ("id", schema.StringAttribute);
    ("unique_email", schema.StringAttribute);
    ("name", schema.StringAttribute);
    ("page_id", schema.StringAttribute);
    ("description", schema.StringAttribute);
    ("status", schema.StringAttribute);
    ("order", schema.Int64Attribute);
    ("group_id", schema.StringAttribute);
    ("show_uptime", schema.BoolAttribute);
    ("grouped", schema.BoolAttribute);
    ("group", schema.StringAttribute);
    ("last_updated", schema.StringAttribute) ]%string.

Fixpoint field_type (name : string) (fields : list (string * schema.AttributeType))
    : option schema.AttributeType :=
  match fields with
  | [] => None
  | (k, t) :: rest => if String.eqb k name then Some t else field_type name rest
  end.

(** ** Kinds of calls and echoing services *)

(** [true] when the call is the one kind of call the handler is written
    to make. *)
Definition own_call (op : Operation) (c : Is.Call) : bool :=
  match op, c with
  | OpCreate _, Is.CallCreateComponent _ _
  | OpRead _, Is.CallGetComponent _ _
  | OpUpdate _, Is.CallUpdateComponent _ _ _
  | OpDelete _, Is.CallDeleteComponent _ _ => true
  | _, _ => false
  end.

(** A returned component that repeats the four configured fields of the
    request body no handler copies back after a write. *)
Definition echoes (item : Is.Component) (component : Is.ComponentResponse) : Prop :=
  Is.rName component = Is.Name item
  /\ Is.rDescription component = Is.Description item
  /\ Is.rStatus component = Is.Status item
  /\ Is.rShowUptime component = Is.ShowUptime item.

(** The plan of a configured attribute at apply time holds no unknown. *)
Definition configured_known (plan : componentResourceModel) : bool :=
  negb (types.IsUnknown (Name plan))
  && negb (types.IsUnknown (Description plan))
  && negb (types.IsUnknown (Status plan))
  && negb (types.IsUnknown (ShowUptime plan)).

(** A decoding that reports an error. *)
Definition broken_state : tfsdk.State :=
  {| tfsdk.State_Raw := null_model;
     tfsdk.State_Get_diags :=
       [diag.NewErrorDiagnostic "Value Conversion Error" "cannot decode the state"] |}.

(** The component an obliging service returns for [sample_plan_grouped]. *)
Definition sample_echo : Is.ComponentResponse :=
  {| Is.rID := Some "cmp-9"%string;
     Is.rUniqueEmail := Some "component+9@instatus.example"%string;
     Is.rName := Some "api"%string;
     Is.rDescription := None;
     Is.rStatus := Some "OPERATIONAL"%string;
     Is.rOrder := Some 0%Z;
     Is.rGroupID := Some "grp-2"%string;
     Is.rShowUptime := Some true;
     Is.rGrouped := Some true;
     Is.rGroup := {| Is.GroupName := Some "core"%string |} |}.

(** * Properties *)

(** ** Diagnostics *)

Lemma Contains_error_HasError (diags : diag.Diagnostics) (summary detail : string) :
  diag.Contains diags (diag.NewErrorDiagnostic summary detail) = true ->
  diag.HasError diags = true.
Proof.
  unfold diag.Contains, diag.HasError.
  induction diags as [|d rest IH]; simpl; intro H.
  - discriminate.
  - apply orb_true_iff in H. apply orb_true_iff.
    destruct H as [H|H].
    + left. unfold diag.Equal in H. simpl in H.
      destruct (diag.Severity_ d); [reflexivity | discriminate].
    + right. exact (IH H).
Qed.

Lemma AddError_fresh (diags : diag.Diagnostics) (summary detail : string) :
  diag.HasError diags = false ->
  diag.AddError diags summary detail = diags ++ [diag.NewErrorDiagnostic summary detail].
Proof.
  intro H. unfold diag.AddError. simpl.
  case_eq (diag.Contains diags (diag.NewErrorDiagnostic summary detail)); intro C.
  - apply Contains_error_HasError in C. congruence.
  - reflexivity.
Qed.

Lemma Errors_none (diags : diag.Diagnostics) :
  diag.HasError diags = false -> diag.Errors diags = [].
Proof.
  unfold diag.HasError, diag.Errors.
  induction diags as [|d rest IH]; simpl; intro H.
  - reflexivity.
  - apply orb_false_iff in H. destruct H as [Hd Hrest].
    rewrite Hd. exact (IH Hrest).
Qed.

Lemma Errors_app (a b : diag.Diagnostics) :
  diag.Errors (a ++ b) = diag.Errors a ++ diag.Errors b.
Proof. unfold diag.Errors. apply filter_app. Qed.

Lemma Equal_refl (d : diag.Diagnostic) : diag.Equal d d = true.
Proof.
  unfold diag.Equal. rewrite !String.eqb_refl.
  destruct (diag.Severity_ d); reflexivity.
Qed.

Lemma Equal_eq (a b : diag.Diagnostic) : diag.Equal a b = true -> a = b.
Proof.
  unfold diag.Equal. intro H.
  apply andb_true_iff in H. destruct H as [H Hd].
  apply andb_true_iff in H. destruct H as [Hs Hm].
  apply String.eqb_eq in Hd. apply String.eqb_eq in Hm.
  destruct a as [sa ma da], b as [sb mb db]; simpl in *.
  subst. destruct sa, sb; simpl in Hs; congruence.
Qed.

Lemma Contains_In (diags : diag.Diagnostics) (d : diag.Diagnostic) :
  diag.Contains diags d = true <-> In d diags.
Proof.
  unfold diag.Contains. rewrite existsb_exists. split.
  - intros [x [Hin Heq]]. apply Equal_eq in Heq. now subst.
  - intro Hin. exists d. split; [assumption | apply Equal_refl].
Qed.

Lemma AddWarning_In (diags : diag.Diagnostics) (summary detail : string) :
  In (diag.NewWarningDiagnostic summary detail) (diag.AddWarning diags summary detail).
Proof.
  unfold diag.AddWarning. simpl.
  case_eq (diag.Contains diags (diag.NewWarningDiagnostic summary detail)); intro C.
  - now apply Contains_In.
  - apply in_or_app. right. now left.
Qed.

Lemma AddWarning_fresh (diags : diag.Diagnostics) (summary detail : string) :
  diag.Contains diags (diag.NewWarningDiagnostic summary detail) = false ->
  diag.AddWarning diags summary detail
    = diags ++ [diag.NewWarningDiagnostic summary detail].
Proof.
  intro C. unfold diag.AddWarning. simpl. now rewrite C.
Qed.

Lemma HasError_app (a b : diag.Diagnostics) :
  diag.HasError (a ++ b) = diag.HasError a || diag.HasError b.
Proof. unfold diag.HasError. apply existsb_app. Qed.

Lemma AddWarning_HasError (diags : diag.Diagnostics) (summary detail : string) :
  diag.HasError (diag.AddWarning diags summary detail) = diag.HasError diags.
Proof.
  unfold diag.AddWarning. simpl.
  destruct (diag.Contains diags (diag.NewWarningDiagnostic summary detail)).
  - reflexivity.
  - rewrite HasError_app. simpl. now rewrite !orb_false_r.
Qed.

(** ** How a handler runs *)

Section Runs.

Variable Remote : Type.
Variable Time : Type.
Variable Format_RFC850 : Time -> string.
Variable r : componentResource Remote.

Lemma run_decode_error (op : Operation) (resp : resource.Response) (w : World Remote Time) :
  diag.HasError (after_decode op resp) = true ->
  run Format_RFC850 r op resp w = (resource.with_Diagnostics resp (after_decode op resp), w).
Proof.
  unfold after_decode. intro H.
  destruct op as [req|req|req|req]; simpl in *;
    unfold Create, Read, Update, Delete; simpl; rewrite H; reflexivity.
Qed.

Lemma run_client_error (op : Operation) (resp : resource.Response) (w : World Remote Time)
    (err : Is.error) (rem' : Remote) :
  diag.HasError (after_decode op resp) = false ->
  perform (client r) (client_call op) (remote w) = (inr err, rem') ->
  run Format_RFC850 r op resp w =
    (resource.with_Diagnostics resp
       (diag.AddError (after_decode op resp) (error_summary op)
          (error_prefix op ++ Is.Error err)),
     called op w rem').
Proof.
  unfold after_decode, called. intros Hd Hp.
  destruct op as [req|req|req|req]; simpl in *;
    unfold Create, Read, Update, Delete, bind, invoke, ret; simpl; rewrite Hd.
  - destruct (Is.CreateComponent (client r) _ _ (remote w)) as [[c|e] rem]; simpl in Hp;
      inversion Hp; subst; reflexivity.
  - destruct (Is.GetComponent (client r) _ _ (remote w)) as [[c|e] rem]; simpl in Hp;
      inversion Hp; subst; reflexivity.
  - destruct (Is.UpdateComponent (client r) _ _ _ (remote w)) as [[c|e] rem]; simpl in Hp;
      inversion Hp; subst; reflexivity.
  - destruct (Is.DeleteComponent (client r) _ _ (remote w)) as [[e|] rem]; simpl in Hp;
      inversion Hp; subst; reflexivity.
Qed.

Lemma perform_fits (op : Operation) (rem rem' : Remote)
    (component : option Is.ComponentResponse) :
  perform (client r) (client_call op) rem = (inl component, rem') ->
  fits op component = true.
Proof.
  destruct op as [req|req|req|req]; simpl; intro Hp.
  - destruct (Is.CreateComponent (client r) _ _ rem) as [[c|e] rem0]; simpl in Hp;
      inversion Hp; reflexivity.
  - destruct (Is.GetComponent (client r) _ _ rem) as [[c|e] rem0]; simpl in Hp;
      inversion Hp; reflexivity.
  - destruct (Is.UpdateComponent (client r) _ _ _ rem) as [[c|e] rem0]; simpl in Hp;
      inversion Hp; reflexivity.
  - destruct (Is.DeleteComponent (client r) _ _ rem) as [[e|] rem0]; simpl in Hp;
      inversion Hp; reflexivity.
Qed.

Lemma run_client_ok (op : Operation) (resp : resource.Response) (w : World Remote Time)
    (component : option Is.ComponentResponse) (rem' : Remote) :
  diag.HasError (after_decode op resp) = false ->
  perform (client r) (client_call op) (remote w) = (inl component, rem') ->
  run Format_RFC850 r op resp w =
    (answered Format_RFC850 op resp component (now w), called op w rem').
Proof.
  unfold after_decode, called, answered. intros Hd Hp.
  destruct op as [req|req|req|req]; simpl in *;
    unfold Create, Read, Update, Delete, bind, invoke, ret, time_Now, after_decode;
    simpl; rewrite Hd.
  - destruct (Is.CreateComponent (client r) _ _ (remote w)) as [[c|e] rem]; simpl in Hp;
      inversion Hp; subst; reflexivity.
  - destruct (Is.GetComponent (client r) _ _ (remote w)) as [[c|e] rem]; simpl in Hp;
      inversion Hp; subst; reflexivity.
  - destruct (Is.UpdateComponent (client r) _ _ _ (remote w)) as [[c|e] rem]; simpl in Hp;
      inversion Hp; subst; reflexivity.
  - destruct (Is.DeleteComponent (client r) _ _ (remote w)) as [[e|] rem]; simpl in Hp;
      inversion Hp; subst; reflexivity.
Qed.

(** Once the model is decoded, the handler makes exactly its one call. *)
Lemma run_calls_decoded (op : Operation) (resp : resource.Response) (w : World Remote Time) :
  diag.HasError (after_decode op resp) = false ->
  calls (snd (run Format_RFC850 r op resp w)) = calls w ++ [client_call op].
Proof.
  intro Hd.
  case_eq (perform (client r) (client_call op) (remote w)); intros [c|e] rem' Hp.
  - now rewrite (run_client_ok _ _ _ _ _ Hd Hp).
  - now rewrite (run_client_error _ _ _ _ _ Hd Hp).
Qed.

(** Whatever happens, a handler makes at most its one call. *)
Lemma run_calls (op : Operation) (resp : resource.Response) (w : World Remote Time) :
  calls (snd (run Format_RFC850 r op resp w)) = calls w
  \/ calls (snd (run Format_RFC850 r op resp w)) = calls w ++ [client_call op].
Proof.
  case_eq (diag.HasError (after_decode op resp)); intro Hd.
  - left. now rewrite run_decode_error.
  - right.
    case_eq (perform (client r) (client_call op) (remote w)); intros [c|e] rem' Hp.
    + now rewrite (run_client_ok _ _ _ _ _ Hd Hp).
    + now rewrite (run_client_error _ _ _ _ _ Hd Hp).
Qed.

End Runs.

(** ** Failure of the collaborator *)

(** C2.  When the client call of [Create], [Read], [Update] or [Delete]
    returns an error, the handler appends exactly one error diagnostic,
    whose detail ends with the collaborator's message; that diagnostic is
    the only error of the response; the handler has made its one call and
    no other; and the response state is the one it was given. *)
Theorem client_error_is_terminal
    (Remote Time : Type) (Format_RFC850 : Time -> string)
    (r : componentResource Remote) (op : Operation) (resp : resource.Response)
    (w : World Remote Time) (err : Is.error) (rem' : Remote) :
  diag.HasError (after_decode op resp) = false ->
  perform (client r) (client_call op) (remote w) = (inr err, rem') ->
  let out := run Format_RFC850 r op resp w in
  let reported :=
    diag.NewErrorDiagnostic (error_summary op) (error_prefix op ++ Is.Error err) in
  resource.Diagnostics (fst out) = after_decode op resp ++ [reported]
  /\ diag.Errors (resource.Diagnostics (fst out)) = [reported]
  /\ calls (snd out) = calls w ++ [client_call op]
  /\ resource.State (fst out) = resource.State resp.
Proof.
  intros Hd Hp out reported. subst out.
  rewrite (run_client_error _ _ _ _ _ _ _ _ _ Hd Hp). simpl.
  rewrite (AddError_fresh _ _ _ Hd).
  repeat split.
  rewrite Errors_app, (Errors_none _ Hd). reflexivity.
Qed.

Lemma client_error_is_terminal_witness :
  let op := OpRead {| resource.ReadRequest_State := state_of sample_state |} in
  let out :=
    run sample_format (failing "503 Service Unavailable") op
      (response_with sample_state) sample_world in
  let reported :=
    diag.NewErrorDiagnostic (error_summary op)
      (error_prefix op ++ "503 Service Unavailable") in
  resource.Diagnostics (fst out) = [] ++ [reported]
  /\ diag.Errors (resource.Diagnostics (fst out)) = [reported]
  /\ calls (snd out) = [] ++ [client_call op]
  /\ resource.State (fst out) = resource.State (response_with sample_state).
Proof.
  intros op out reported.
  apply (client_error_is_terminal unit Z sample_format
           (failing "503 Service Unavailable") op (response_with sample_state)
           sample_world {| Is.Error := "503 Service Unavailable" |} tt);
    reflexivity.
Defined.

(** ** What a successful Create or Update writes *)

(** C1, as the code has it.  After a successful [Create] or [Update] the
    state holds the service's id, unique email, order, group id and group
    name and the rendering of the current time as [last_updated]; name,
    description, status, show_uptime, page id and grouped are the planned
    values, whatever the returned component says. *)
Theorem write_copies_computed_fields
    (Remote Time : Type) (Format_RFC850 : Time -> string)
    (r : componentResource Remote) (op : Operation) (resp : resource.Response)
    (w : World Remote Time) (component : Is.ComponentResponse) (rem' : Remote) :
  from_plan op = true ->
  diag.HasError (after_decode op resp) = false ->
  perform (client r) (client_call op) (remote w) = (inl (Some component), rem') ->
  let st := tfsdk.State_Raw (resource.State (fst (run Format_RFC850 r op resp w))) in
  let plan := decoded op in
  (ID st = types.StringPointerValue (Is.rID component)
   /\ UniqueEmail st = types.StringPointerValue (Is.rUniqueEmail component)
   /\ Order st = types.Int64PointerValue (Is.rOrder component)
   /\ GroupID st = types.StringPointerValue (Is.rGroupID component)
   /\ Group st = types.StringPointerValue (Is.GroupName (Is.rGroup component))
   /\ LastUpdated st = types.StringValue (Format_RFC850 (now w)))
  /\ (Name st = Name plan
      /\ Description st = Description plan
      /\ Status st = Status plan
      /\ ShowUptime st = ShowUptime plan
      /\ PageID st = PageID plan
      /\ Grouped st = Grouped plan).
Proof.
  intros Hplan Hd Hp st plan. subst st plan.
  rewrite (run_client_ok _ _ _ _ _ _ _ _ _ Hd Hp).
  destruct op as [req|req|req|req]; try discriminate Hplan;
    simpl; repeat split.
Qed.

Lemma write_copies_computed_fields_witness :
  let op := OpUpdate {| resource.UpdateRequest_Plan := plan_of sample_plan |} in
  let st :=
    tfsdk.State_Raw (resource.State (fst
      (run sample_format (answering sample_component) op
         (response_with sample_state) sample_world))) in
  (ID st = types.StringPointerValue (Is.rID sample_component)
   /\ UniqueEmail st = types.StringPointerValue (Is.rUniqueEmail sample_component)
   /\ Order st = types.Int64PointerValue (Is.rOrder sample_component)
   /\ GroupID st = types.StringPointerValue (Is.rGroupID sample_component)
   /\ Group st = types.StringPointerValue (Is.GroupName (Is.rGroup sample_component))
   /\ LastUpdated st = types.StringValue (sample_format (now sample_world)))
  /\ (Name st = Name (decoded op)
      /\ Description st = Description (decoded op)
      /\ Status st = Status (decoded op)
      /\ ShowUptime st = ShowUptime (decoded op)
      /\ PageID st = PageID (decoded op)
      /\ Grouped st = Grouped (decoded op)).
Proof.
  intros op st.
  apply (write_copies_computed_fields unit Z sample_format
           (answering sample_component) op (response_with sample_state)
           sample_world sample_component tt);
    reflexivity.
Defined.

(** C1, as stated, fails: [Create] succeeds against a service that
    answers with another name, description, status and show_uptime than
    planned, and the state keeps the planned ones. *)
Lemma create_keeps_planned_values :
  let op := OpCreate {| resource.CreateRequest_Plan := plan_of sample_plan |} in
  let out :=
    run sample_format (answering sample_component) op
      (response_with null_model) sample_world in
  let st := tfsdk.State_Raw (resource.State (fst out)) in
  perform (client (answering sample_component)) (client_call op) (remote sample_world)
    = (inl (Some sample_component), tt)
  /\ diag.HasError (resource.Diagnostics (fst out)) = false
  /\ Name st = types.StringValue "api"
  /\ Name st <> types.StringPointerValue (Is.rName sample_component)
  /\ Description st <> types.StringPointerValue (Is.rDescription sample_component)
  /\ Status st <> types.StringPointerValue (Is.rStatus sample_component)
  /\ ShowUptime st <> types.BoolPointerValue (Is.rShowUptime sample_component).
Proof.
  simpl. repeat split; discriminate.
Qed.

(** ** The group flag and the group name *)

(** C3, as the code has it.  After a successful [Create], [Update] or
    [Read] the group name in state is the one the service returned.  The
    flag [grouped] is the planned value after [Create] and [Update], and
    after [Read] it says whether the returned group name is present.  No
    handler checks the two against each other: the response carries no
    error. *)
Theorem group_from_service_grouped_local
    (Remote Time : Type) (Format_RFC850 : Time -> string)
    (r : componentResource Remote) (op : Operation) (resp : resource.Response)
    (w : World Remote Time) (component : Is.ComponentResponse) (rem' : Remote) :
  diag.HasError (after_decode op resp) = false ->
  perform (client r) (client_call op) (remote w) = (inl (Some component), rem') ->
  let out := run Format_RFC850 r op resp w in
  let st := tfsdk.State_Raw (resource.State (fst out)) in
  let name := Is.GroupName (Is.rGroup component) in
  Group st = types.StringPointerValue name
  /\ Grouped st =
       (if from_plan op then Grouped (decoded op)
        else types.BoolValue (match name with Some _ => true | None => false end))
  /\ diag.HasError (resource.Diagnostics (fst out)) = false.
Proof.
  intros Hd Hp out st name. subst out st name.
  pose proof (perform_fits _ _ _ _ _ _ Hp) as Hfit.
  rewrite (run_client_ok _ _ _ _ _ _ _ _ _ Hd Hp).
  destruct op as [req|req|req|req]; try discriminate Hfit;
    simpl; repeat split; try exact Hd.
  rewrite AddWarning_HasError. exact Hd.
Qed.

Lemma group_from_service_grouped_local_witness :
  let op := OpRead {| resource.ReadRequest_State := state_of sample_state |} in
  let out :=
    run sample_format (answering sample_component) op
      (response_with sample_state) sample_world in
  let st := tfsdk.State_Raw (resource.State (fst out)) in
  let name := Is.GroupName (Is.rGroup sample_component) in
  Group st = types.StringPointerValue name
  /\ Grouped st =
       (if from_plan op then Grouped (decoded op)
        else types.BoolValue (match name with Some _ => true | None => false end))
  /\ diag.HasError (resource.Diagnostics (fst out)) = false.
Proof.
  intros op out st name.
  apply (group_from_service_grouped_local unit Z sample_format
           (answering sample_component) op (response_with sample_state)
           sample_world sample_component tt);
    reflexivity.
Defined.

(** C3, as stated, fails.  Two [Create] runs get the same component from
    the service, one planned with [grouped = false] and one with
    [grouped = true]: the states hold [false] and [true], so the flag is
    not read from the component, and the first pair differs from the
    pair the service returned. *)
Lemma create_grouped_is_the_planned_flag :
  let create plan :=
    run sample_format (answering sample_component)
      (OpCreate {| resource.CreateRequest_Plan := plan_of plan |})
      (response_with null_model) sample_world in
  let st1 := tfsdk.State_Raw (resource.State (fst (create sample_plan))) in
  let st2 := tfsdk.State_Raw (resource.State (fst (create sample_plan_grouped))) in
  diag.HasError (resource.Diagnostics (fst (create sample_plan))) = false
  /\ diag.HasError (resource.Diagnostics (fst (create sample_plan_grouped))) = false
  /\ (Grouped st1, Group st1) = (types.BoolValue false, types.StringValue "core")
  /\ (Grouped st2, Group st2) = (types.BoolValue true, types.StringValue "core")
  /\ (Grouped st1, Group st1)
       <> (types.BoolPointerValue (Is.rGrouped sample_component),
           types.StringPointerValue (Is.GroupName (Is.rGroup sample_component)))
  /\ Grouped st1 <> Grouped st2.
Proof.
  simpl. repeat split; discriminate.
Qed.

(** ** The status validator *)

Lemma validate_status_OneOf (config : types.String) :
  validate_status config = schema.Validate (schema.OneOf componentStatuses) config.
Proof.
  unfold validate_status. simpl. unfold schema.ValidateAttribute. simpl.
  apply andb_true_r.
Qed.

(** ** The request built from the plan *)

(** C5, as the code has it.  Whenever [Create] or [Update] has decoded
    its plan without error it makes exactly one client call:
    [CreateComponent] with the plan's page id, or [UpdateComponent] with
    the plan's page id and component id (the empty string for a null or
    unknown one).  Each of the item's name, description, status, order,
    show_uptime, grouped and group is nil for a null plan value, a
    pointer to the value for a known one, and a pointer to the zero value
    (empty string, 0, false) for an unknown one. *)
Theorem request_maps_plan_values
    (Remote Time : Type) (Format_RFC850 : Time -> string)
    (r : componentResource Remote) (op : Operation) (resp : resource.Response)
    (w : World Remote Time) :
  from_plan op = true ->
  diag.HasError (after_decode op resp) = false ->
  let plan := decoded op in
  let pointer (A : Type) (zero : A) (v : types.Value A) : option A :=
    match v with
    | types.Null => None
    | types.Unknown => Some zero
    | types.Known a => Some a
    end in
  let text (v : types.String) : string :=
    match v with types.Known s => s | _ => EmptyString end in
  exists item : Is.Component,
    calls (snd (run Format_RFC850 r op resp w))
      = calls w ++ [match op with
                    | OpUpdate _ =>
                        Is.CallUpdateComponent (text (PageID plan)) (text (ID plan)) item
                    | _ => Is.CallCreateComponent (text (PageID plan)) item
                    end]
    /\ Is.Name item = pointer string EmptyString (Name plan)
    /\ Is.Description item = pointer string EmptyString (Description plan)
    /\ Is.Status item = pointer string EmptyString (Status plan)
    /\ Is.Order item = pointer Z 0%Z (Order plan)
    /\ Is.ShowUptime item = pointer bool false (ShowUptime plan)
    /\ Is.Grouped item = pointer bool false (Grouped plan)
    /\ Is.Group item = pointer string EmptyString (Group plan).
Proof.
  intros Hplan Hd plan pointer text. subst plan pointer text.
  exists (item_of_plan (decoded op)).
  split; [| repeat split].
  rewrite (run_calls_decoded _ _ _ _ _ _ _ Hd).
  destruct op; try discriminate Hplan; reflexivity.
Qed.

Lemma request_maps_plan_values_witness :
  let op := OpUpdate {| resource.UpdateRequest_Plan := plan_of sample_state |} in
  exists item : Is.Component,
    calls (snd (run sample_format (answering sample_component) op
                  (response_with sample_state) sample_world))
      = [] ++ [Is.CallUpdateComponent "page-1" "cmp-7" item]
    /\ Is.Name item = Some "api"%string
    /\ Is.Description item = None
    /\ Is.Status item = Some "OPERATIONAL"%string
    /\ Is.Order item = Some 1%Z
    /\ Is.ShowUptime item = Some true
    /\ Is.Grouped item = Some false
    /\ Is.Group item = None.
Proof.
  intro op.
  exact (request_maps_plan_values unit Z sample_format (answering sample_component) op
           (response_with sample_state) sample_world eq_refl eq_refl).
Defined.

(** C5, as stated, fails.  A plan whose order is unknown and a plan whose
    order is zero make [Create] send the same request: the item's order
    is a pointer to 0 in both, which is not the unknown the first plan
    holds. *)
Lemma unknown_order_is_not_copied :
  let sent plan :=
    calls (snd (run sample_format (answering sample_component)
                  (OpCreate {| resource.CreateRequest_Plan := plan_of plan |})
                  (response_with null_model) sample_world)) in
  Order sample_plan = types.Unknown
  /\ Order sample_plan_order_zero = types.Int64Value 0
  /\ sent sample_plan = sent sample_plan_order_zero
  /\ exists item : Is.Component,
       sent sample_plan = [Is.CallCreateComponent "page-1" item]
       /\ Is.Order item = Some 0%Z
       /\ types.Int64PointerValue (Is.Order item) <> Order sample_plan.
Proof.
  simpl. repeat split.
  eexists. repeat split. simpl. discriminate.
Qed.

(** ** Read *)

(** C7.  A successful [Read] overwrites unique_email, name, description,
    status, order, group_id, show_uptime, grouped and group with values
    of the component just fetched and leaves id, page_id and last_updated
    as the prior state had them. *)
Theorem read_is_full_refetch
    (Remote Time : Type) (r : componentResource Remote)
    (req : resource.ReadRequest) (resp : resource.Response)
    (w : World Remote Time) (component : Is.ComponentResponse) (rem' : Remote) :
  let prior := tfsdk.State_Raw (resource.ReadRequest_State req) in
  diag.HasError
    (diag.Append (resource.Diagnostics resp)
       (tfsdk.State_Get_diags (resource.ReadRequest_State req))) = false ->
  Is.GetComponent (client r) (types.ValueString (PageID prior))
    (types.ValueString (ID prior)) (remote w) = (inl component, rem') ->
  let st := tfsdk.State_Raw (resource.State (fst (Read r req resp w))) in
  (UniqueEmail st = types.StringPointerValue (Is.rUniqueEmail component)
   /\ Name st = types.StringPointerValue (Is.rName component)
   /\ Description st = types.StringPointerValue (Is.rDescription component)
   /\ Status st = types.StringPointerValue (Is.rStatus component)
   /\ Order st = types.Int64PointerValue (Is.rOrder component)
   /\ GroupID st = types.StringPointerValue (Is.rGroupID component)
   /\ ShowUptime st = types.BoolPointerValue (Is.rShowUptime component)
   /\ Grouped st =
        types.BoolValue
          (match Is.GroupName (Is.rGroup component) with Some _ => true | None => false end)
   /\ Group st = types.StringPointerValue (Is.GroupName (Is.rGroup component)))
  /\ (ID st = ID prior
      /\ PageID st = PageID prior
      /\ LastUpdated st = LastUpdated prior).
Proof.
  intros prior Hd Hget st. subst st prior.
  unfold Read, bind, invoke, ret. simpl.
  rewrite Hd, Hget. simpl. repeat split.
Qed.

Lemma read_is_full_refetch_witness :
  let st :=
    tfsdk.State_Raw (resource.State (fst
      (Read (Time := Z) (answering sample_component)
         {| resource.ReadRequest_State := state_of sample_state |}
         (response_with sample_state) sample_world))) in
  (UniqueEmail st = types.StringValue "component+7@instatus.example"
   /\ Name st = types.StringValue "API gateway"
   /\ Description st = types.StringValue "Public API"
   /\ Status st = types.StringValue "MAJOROUTAGE"
   /\ Order st = types.Int64Value 3
   /\ GroupID st = types.StringValue "grp-2"
   /\ ShowUptime st = types.BoolValue false
   /\ Grouped st = types.BoolValue true
   /\ Group st = types.StringValue "core")
  /\ (ID st = types.StringValue "cmp-7"
      /\ PageID st = types.StringValue "page-1"
      /\ LastUpdated st = types.StringValue "Friday, 30-Oct-26 09:00:00 UTC").
Proof.
  exact (read_is_full_refetch unit Z (answering sample_component)
           {| resource.ReadRequest_State := state_of sample_state |}
           (response_with sample_state) sample_world sample_component tt
           eq_refl eq_refl).
Defined.

(** ** Import *)

(** C8.  [ImportState] writes the import identifier to the id attribute
    and touches nothing else: the eleven other attributes and the
    diagnostics are the ones of the response it was given. *)
Theorem import_is_passthrough (req : resource.ImportStateRequest) (resp : resource.Response) :
  let out := ImportState req resp in
  let st := tfsdk.State_Raw (resource.State out) in
  let prior := tfsdk.State_Raw (resource.State resp) in
  ID st = types.StringValue (resource.ImportStateRequest_ID req)
  /\ (UniqueEmail st = UniqueEmail prior
      /\ Name st = Name prior
      /\ PageID st = PageID prior
      /\ Description st = Description prior
      /\ Status st = Status prior
      /\ Order st = Order prior
      /\ GroupID st = GroupID prior
      /\ ShowUptime st = ShowUptime prior
      /\ Grouped st = Grouped prior
      /\ Group st = Group prior
      /\ LastUpdated st = LastUpdated prior)
  /\ resource.Diagnostics out = resource.Diagnostics resp.
Proof.
  unfold ImportState, ImportStatePassthroughID. simpl. repeat split.
Qed.

(** ** The warning of Update *)

(** C9.  A successful [Update] always leaves in the diagnostics a warning
    whose summary is "Group name : " followed by the returned group name
    and whose detail is that name, the empty string standing for an
    absent name; the warning is appended unless the very same diagnostic
    was already there, and the response carries no error. *)
Theorem update_always_warns
    (Remote Time : Type) (Format_RFC850 : Time -> string)
    (r : componentResource Remote) (req : resource.UpdateRequest)
    (resp : resource.Response) (w : World Remote Time)
    (component : Is.ComponentResponse) (rem' : Remote) :
  let plan := tfsdk.Plan_Raw (resource.UpdateRequest_Plan req) in
  let before :=
    diag.Append (resource.Diagnostics resp)
      (tfsdk.Plan_Get_diags (resource.UpdateRequest_Plan req)) in
  diag.HasError before = false ->
  Is.UpdateComponent (client r) (types.ValueString (PageID plan))
    (types.ValueString (ID plan)) (item_of_plan plan) (remote w)
    = (inl component, rem') ->
  let out := Update Format_RFC850 r req resp w in
  let name :=
    match Is.GroupName (Is.rGroup component) with Some n => n | None => EmptyString end in
  let warning := diag.NewWarningDiagnostic ("Group name : " ++ name) name in
  In warning (resource.Diagnostics (fst out))
  /\ (diag.Contains before warning = false ->
      resource.Diagnostics (fst out) = before ++ [warning])
  /\ diag.HasError (resource.Diagnostics (fst out)) = false.
Proof.
  intros plan before Hd Hup out name warning. subst out plan before.
  unfold Update, bind, invoke, ret, time_Now. simpl.
  rewrite Hd, Hup. simpl.
  assert (Hname : types.ValueString
                    (types.StringPointerValue (Is.GroupName (Is.rGroup component))) = name)
    by (subst name; destruct (Is.GroupName (Is.rGroup component)); reflexivity).
  rewrite Hname. fold warning.
  repeat split.
  - apply AddWarning_In.
  - intro Hfresh. now apply AddWarning_fresh.
  - rewrite AddWarning_HasError. exact Hd.
Qed.

(** A service that answers with a component in no group. *)
Lemma update_always_warns_witness :
  let ungrouped :=
    {| Is.rID := Some "cmp-7"%string; Is.rUniqueEmail := None; Is.rName := Some "api"%string;
       Is.rDescription := None; Is.rStatus := None; Is.rOrder := None;
       Is.rGroupID := None; Is.rShowUptime := None; Is.rGrouped := None;
       Is.rGroup := {| Is.GroupName := None |} |} in
  let out :=
    Update sample_format (answering ungrouped)
      {| resource.UpdateRequest_Plan := plan_of sample_plan |}
      (response_with sample_state) sample_world in
  let warning := diag.NewWarningDiagnostic "Group name : " "" in
  In warning (resource.Diagnostics (fst out))
  /\ (diag.Contains [] warning = false ->
      resource.Diagnostics (fst out) = [] ++ [warning])
  /\ diag.HasError (resource.Diagnostics (fst out)) = false.
Proof.
  intros ungrouped out warning.
  exact (update_always_warns unit Z sample_format (answering ungrouped)
           {| resource.UpdateRequest_Plan := plan_of sample_plan |}
           (response_with sample_state) sample_world ungrouped tt
           eq_refl eq_refl).
Defined.

(** ** The default of grouped *)

(** C10.  With [grouped] left out of the configuration (null there) the
    schema's default makes the planned value [false], not null.  So a
    [Create] or [Update] whose plan holds the value planned for such a
    configuration has [grouped = false] in its plan, sends the service a pointer to [false] rather than nil, and
    on success stores [false] in the state. *)
Theorem grouped_defaults_to_false
    (Remote Time : Type) (Format_RFC850 : Time -> string)
    (r : componentResource Remote) (op : Operation) (resp : resource.Response)
    (w : World Remote Time) (config : componentResourceModel) :
  from_plan op = true ->
  diag.HasError (after_decode op resp) = false ->
  Grouped config = types.Null ->
  Grouped (decoded op) = plan_grouped (Grouped config) ->
  let out := run Format_RFC850 r op resp w in
  (Grouped (decoded op) = types.BoolValue false
   /\ Grouped (decoded op) <> types.Null)
  /\ (exists (c : Is.Call) (item : Is.Component),
         calls (snd out) = calls w ++ [c]
         /\ sent_item c = Some item
         /\ Is.Grouped item = Some false)
  /\ (forall (component : Is.ComponentResponse) (rem' : Remote),
         perform (client r) (client_call op) (remote w) = (inl (Some component), rem') ->
         Grouped (tfsdk.State_Raw (resource.State (fst out))) = types.BoolValue false).
Proof.
  intros Hplan Hd Hconfig Hg out. subst out.
  assert (Hfalse : Grouped (decoded op) = types.BoolValue false)
    by (rewrite Hg, Hconfig; reflexivity).
  split; [| split].
  - split; [exact Hfalse | rewrite Hfalse; discriminate].
  - exists (client_call op), (item_of_plan (decoded op)).
    split; [| split].
    + apply run_calls_decoded. exact Hd.
    + destruct op; try discriminate Hplan; reflexivity.
    + simpl. rewrite Hfalse. reflexivity.
  - intros component rem' Hp.
    rewrite (run_client_ok _ _ _ _ _ _ _ _ _ Hd Hp).
    destruct op; try discriminate Hplan; simpl; exact Hfalse.
Qed.

Lemma grouped_defaults_to_false_witness :
  let op := OpCreate {| resource.CreateRequest_Plan := plan_of sample_plan |} in
  let out :=
    run sample_format (answering sample_component) op
      (response_with null_model) sample_world in
  (Grouped (decoded op) = types.BoolValue false
   /\ Grouped (decoded op) <> types.Null)
  /\ (exists (c : Is.Call) (item : Is.Component),
         calls (snd out) = [] ++ [c]
         /\ sent_item c = Some item
         /\ Is.Grouped item = Some false)
  /\ (forall (component : Is.ComponentResponse) (rem' : unit),
         perform (client (answering sample_component)) (client_call op) tt
           = (inl (Some component), rem') ->
         Grouped (tfsdk.State_Raw (resource.State (fst out))) = types.BoolValue false).
Proof.
  intros op out.
  exact (grouped_defaults_to_false unit Z sample_format (answering sample_component) op
           (response_with null_model) sample_world null_model
           eq_refl eq_refl eq_refl eq_refl).
Defined.

(** ** Who sets the identifier and the unique email *)

Lemma item_of_plan_has_no_ids (plan : componentResourceModel) :
  Is.ID (item_of_plan plan) = None /\ Is.UniqueEmail (item_of_plan plan) = None.
Proof. split; reflexivity. Qed.

Lemma sent_item_client_call (op : Operation) (item : Is.Component) :
  sent_item (client_call op) = Some item -> item = item_of_plan (decoded op).
Proof.
  destruct op; simpl; intro H; inversion H; reflexivity.
Qed.

(** C6, as the code has it.  (1) Every request body a handler passes to
    the client has nil ID and nil UniqueEmail.  (2) A CRUD handler either
    leaves the response state as it was or has received a component from
    the service; then unique_email is the returned one and id is the
    returned one after [Create] and [Update] and the prior one after
    [Read].  (3) [ImportState] sets id to the import identifier it is
    given and leaves unique_email alone.  (4) The schema declares id and
    unique_email computed, neither required nor optional. *)
Theorem identifiers_from_service_or_import :
  (forall (Remote Time : Type) (Format_RFC850 : Time -> string)
          (r : componentResource Remote) (op : Operation) (resp : resource.Response)
          (w : World Remote Time),
      exists new : list Is.Call,
        calls (snd (run Format_RFC850 r op resp w)) = calls w ++ new
        /\ forall c item, In c new -> sent_item c = Some item ->
             Is.ID item = None /\ Is.UniqueEmail item = None)
  /\ (forall (Remote Time : Type) (Format_RFC850 : Time -> string)
             (r : componentResource Remote) (op : Operation) (resp : resource.Response)
             (w : World Remote Time),
         let out := run Format_RFC850 r op resp w in
         let st := tfsdk.State_Raw (resource.State (fst out)) in
         resource.State (fst out) = resource.State resp
         \/ exists (component : Is.ComponentResponse) (rem' : Remote),
              perform (client r) (client_call op) (remote w)
                = (inl (Some component), rem')
              /\ UniqueEmail st = types.StringPointerValue (Is.rUniqueEmail component)
              /\ ID st = (if from_plan op
                          then types.StringPointerValue (Is.rID component)
                          else ID (decoded op)))
  /\ (forall (req : resource.ImportStateRequest) (resp : resource.Response),
         let st := tfsdk.State_Raw (resource.State (ImportState req resp)) in
         ID st = types.StringValue (resource.ImportStateRequest_ID req)
         /\ UniqueEmail st = UniqueEmail (tfsdk.State_Raw (resource.State resp)))
  /\ (forall name : string,
         name = "id"%string \/ name = "unique_email"%string ->
         exists a : schema.Attribute,
           schema.lookup name (schema.Attributes Schema) = Some a
           /\ schema.Computed a = true
           /\ schema.Required a = false
           /\ schema.Optional a = false).
Proof.
  split; [| split; [| split]].
  - intros Remote Time F r op resp w.
    destruct (run_calls Remote Time F r op resp w) as [H|H].
    + exists []. rewrite H, app_nil_r. split; [reflexivity | intros c item []].
    + exists [client_call op]. split; [exact H |].
      intros c item [Hc|[]] Hitem. subst c.
      apply sent_item_client_call in Hitem. subst item.
      apply item_of_plan_has_no_ids.
  - intros Remote Time F r op resp w out st. subst st out.
    case_eq (diag.HasError (after_decode op resp)); intro Hd.
    + left. now rewrite run_decode_error.
    + case_eq (perform (client r) (client_call op) (remote w)); intros [[c|]|e] rem' Hp.
      * right. exists c, rem'. split; [reflexivity |].
        pose proof (perform_fits _ _ _ _ _ _ Hp) as Hfit.
        rewrite (run_client_ok _ _ _ _ _ _ _ _ _ Hd Hp).
        destruct op; try discriminate Hfit; split; reflexivity.
      * left. rewrite (run_client_ok _ _ _ _ _ _ _ _ _ Hd Hp).
        destruct op; reflexivity.
      * left. now rewrite (run_client_error _ _ _ _ _ _ _ _ _ Hd Hp).
  - intros req resp. split; reflexivity.
  - intros name [H|H]; subst name; eexists; repeat split.
Qed.

Lemma identifiers_from_service_or_import_witness :
  exists a : schema.Attribute,
    schema.lookup "unique_email" (schema.Attributes Schema) = Some a
    /\ schema.Computed a = true
    /\ schema.Required a = false
    /\ schema.Optional a = false.
Proof.
  exact (proj2 (proj2 (proj2 identifiers_from_service_or_import))
           "unique_email"%string (or_intror eq_refl)).
Defined.

(** C6, as stated, fails.  [ImportState] puts the identifier the user
    typed into the id attribute without any call on the client, and a
    successful [Read] afterwards keeps it, although the service returned
    another identifier. *)
Lemma import_sets_id_from_request :
  let imported :=
    ImportState {| resource.ImportStateRequest_ID := "typed-by-the-user" |}
      (response_with null_model) in
  let refreshed :=
    Read (Time := Z) (answering sample_component)
      {| resource.ReadRequest_State := resource.State imported |}
      imported sample_world in
  let st := tfsdk.State_Raw (resource.State (fst refreshed)) in
  ID (tfsdk.State_Raw (resource.State imported)) = types.StringValue "typed-by-the-user"
  /\ diag.HasError (resource.Diagnostics (fst refreshed)) = false
  /\ calls (snd refreshed) = [Is.CallGetComponent "" "typed-by-the-user"]
  /\ ID st = types.StringValue "typed-by-the-user"
  /\ ID st <> types.StringPointerValue (Is.rID sample_component).
Proof.
  simpl. repeat split. discriminate.
Qed.

(** * Further properties of the handlers *)

Section Outcomes.

Variable Remote : Type.
Variable Time : Type.
Variable Format_RFC850 : Time -> string.
Variable r : componentResource Remote.

Lemma answered_HasError (op : Operation) (resp : resource.Response)
    (component : option Is.ComponentResponse) (t : Time) :
  diag.HasError (after_decode op resp) = false ->
  diag.HasError (resource.Diagnostics (answered Format_RFC850 op resp component t)) = false.
Proof.
  intro Hd. unfold answered.
  destruct op, component; simpl; try exact Hd.
  rewrite AddWarning_HasError. exact Hd.
Qed.

Lemma AddError_HasError (diags : diag.Diagnostics) (summary detail : string) :
  diag.HasError (diag.AddError diags summary detail) = true.
Proof.
  case_eq (diag.HasError diags); intro H.
  - unfold diag.AddError. simpl.
    destruct (diag.Contains diags (diag.NewErrorDiagnostic summary detail)).
    + exact H.
    + rewrite HasError_app, H. reflexivity.
  - rewrite (AddError_fresh _ _ _ H), HasError_app, H. reflexivity.
Qed.

(** X1.  When decoding the plan or the prior state reports an error, the
    handler returns at once: no client call, the service and the
    response state untouched, and no diagnostic beyond the decoding
    ones. *)
Theorem decode_error_stops_handler (op : Operation) (resp : resource.Response)
    (w : World Remote Time) :
  diag.HasError (after_decode op resp) = true ->
  let out := run Format_RFC850 r op resp w in
  snd out = w
  /\ resource.State (fst out) = resource.State resp
  /\ resource.Diagnostics (fst out) = after_decode op resp.
Proof.
  intros Hd out. subst out. rewrite (run_decode_error _ _ _ _ _ _ _ Hd).
  repeat split.
Qed.

(** X2.  The response carries an error after a handler exactly when decoding
    reported one or the client call returned one. *)
Theorem error_reported_iff_failure (op : Operation) (resp : resource.Response)
    (w : World Remote Time) :
  diag.HasError (resource.Diagnostics (fst (run Format_RFC850 r op resp w))) = true
  <-> (diag.HasError (after_decode op resp) = true
       \/ exists (err : Is.error) (rem' : Remote),
            perform (client r) (client_call op) (remote w) = (inr err, rem')).
Proof.
  case_eq (diag.HasError (after_decode op resp)); intro Hd.
  - rewrite (run_decode_error _ _ _ _ _ _ _ Hd). simpl. rewrite Hd. tauto.
  - case_eq (perform (client r) (client_call op) (remote w)); intros [c|e] rem' Hp.
    + rewrite (run_client_ok _ _ _ _ _ _ _ _ _ Hd Hp). simpl.
      rewrite (answered_HasError _ _ _ _ Hd).
      split; [discriminate |].
      intros [H | [err [rem'' H]]]; discriminate.
    + rewrite (run_client_error _ _ _ _ _ _ _ _ _ Hd Hp). simpl.
      rewrite AddError_HasError.
      split; [| reflexivity]. intros _. right. now exists e, rem'.
Qed.

(** X3.  A handler makes at most one client call, and only the call of its
    own kind: [Create] never updates or deletes, [Read] only fetches, and
    so on. *)
Theorem at_most_one_call_of_own_kind (op : Operation) (resp : resource.Response)
    (w : World Remote Time) :
  exists new : list Is.Call,
    calls (snd (run Format_RFC850 r op resp w)) = calls w ++ new
    /\ length new <= 1
    /\ forallb (own_call op) new = true.
Proof.
  destruct (run_calls Remote Time Format_RFC850 r op resp w) as [H|H].
  - exists []. rewrite H, app_nil_r. repeat split. apply le_0_n.
  - exists [client_call op]. split; [exact H |]. split; [apply le_n |].
    destruct op; reflexivity.
Qed.

(** X4.  [Delete] never writes the response state, whatever the service
    answers; removing the state is left to the framework. *)
Theorem delete_never_writes_state (req : resource.DeleteRequest)
    (resp : resource.Response) (w : World Remote Time) :
  resource.State (fst (Delete r req resp w)) = resource.State resp.
Proof.
  unfold Delete, bind, invoke, ret. simpl.
  destruct (diag.HasError _); [reflexivity |].
  destruct (Is.DeleteComponent (client r) _ _ (remote w)) as [[e|] rem]; reflexivity.
Qed.

(** X5.  A successful [Delete] has made the one call [DeleteComponent] on the
    page id and component id of the prior state, leaves the service as
    that call left it, and adds no diagnostic. *)
Theorem delete_success (req : resource.DeleteRequest) (resp : resource.Response)
    (w : World Remote Time) (rem' : Remote) :
  let state := tfsdk.State_Raw (resource.DeleteRequest_State req) in
  let before :=
    diag.Append (resource.Diagnostics resp)
      (tfsdk.State_Get_diags (resource.DeleteRequest_State req)) in
  diag.HasError before = false ->
  Is.DeleteComponent (client r) (types.ValueString (PageID state))
    (types.ValueString (ID state)) (remote w) = (None, rem') ->
  let out := Delete r req resp w in
  calls (snd out)
    = calls w ++ [Is.CallDeleteComponent (types.ValueString (PageID state))
                    (types.ValueString (ID state))]
  /\ remote (snd out) = rem'
  /\ resource.Diagnostics (fst out) = before.
Proof.
  intros state before Hd Hdel out. subst out state before.
  unfold Delete, bind, invoke, ret. simpl.
  rewrite Hd, Hdel. repeat split.
Qed.

End Outcomes.

Lemma decode_error_stops_handler_witness :
  let op := OpRead {| resource.ReadRequest_State := broken_state |} in
  let out :=
    run sample_format (answering sample_component) op
      (response_with sample_state) sample_world in
  snd out = sample_world
  /\ resource.State (fst out) = resource.State (response_with sample_state)
  /\ resource.Diagnostics (fst out) = after_decode op (response_with sample_state).
Proof.
  intros op out.
  exact (decode_error_stops_handler unit Z sample_format (answering sample_component)
           op (response_with sample_state) sample_world eq_refl).
Defined.

Lemma delete_success_witness :
  let out :=
    Delete (Time := Z) (answering sample_component)
      {| resource.DeleteRequest_State := state_of sample_state |}
      (response_with sample_state) sample_world in
  calls (snd out) = [] ++ [Is.CallDeleteComponent "page-1" "cmp-7"]
  /\ remote (snd out) = tt
  /\ resource.Diagnostics (fst out) = [].
Proof.
  exact (delete_success unit Z (answering sample_component)
           {| resource.DeleteRequest_State := state_of sample_state |}
           (response_with sample_state) sample_world tt eq_refl eq_refl).
Defined.

(** ** Refreshing what was written *)

Lemma pointer_round_trip_String (v : types.String) :
  types.IsUnknown v = false ->
  types.StringPointerValue (types.ValueStringPointer v) = v.
Proof. destruct v; simpl; [reflexivity | discriminate | reflexivity]. Qed.

Lemma pointer_round_trip_Bool (v : types.Bool) :
  types.IsUnknown v = false ->
  types.BoolPointerValue (types.ValueBoolPointer v) = v.
Proof. destruct v; simpl; [reflexivity | discriminate | reflexivity]. Qed.

Section Refresh.

Variable Remote : Type.
Variable Time : Type.
Variable Format_RFC850 : Time -> string.
Variable r : componentResource Remote.

Lemma Read_ok (req : resource.ReadRequest) (resp : resource.Response)
    (w : World Remote Time) (component : Is.ComponentResponse) (rem' : Remote) :
  let prior := tfsdk.State_Raw (resource.ReadRequest_State req) in
  let before :=
    diag.Append (resource.Diagnostics resp)
      (tfsdk.State_Get_diags (resource.ReadRequest_State req)) in
  diag.HasError before = false ->
  Is.GetComponent (client r) (types.ValueString (PageID prior))
    (types.ValueString (ID prior)) (remote w) = (inl component, rem') ->
  Read r req resp w
    = (set_state (resource.with_Diagnostics resp before)
         (state_with_response prior component),
       {| remote := rem';
          calls := calls w ++ [Is.CallGetComponent (types.ValueString (PageID prior))
                                 (types.ValueString (ID prior))];
          now := now w |}).
Proof.
  intros prior before Hd Hget. subst prior before.
  unfold Read, bind, invoke, ret. simpl. rewrite Hd, Hget. reflexivity.
Qed.

(** X6.  A successful [Create] or [Update] followed by a successful [Read]
    that fetches the same component: id, unique_email, page_id, order,
    group_id, group and last_updated are as the write left them; grouped
    now says whether the component has a group name. *)
Theorem refresh_after_write_keeps_computed
    (op : Operation) (resp : resource.Response) (w : World Remote Time)
    (component : Is.ComponentResponse) (rem1 rem2 : Remote) :
  from_plan op = true ->
  diag.HasError (after_decode op resp) = false ->
  perform (client r) (client_call op) (remote w) = (inl (Some component), rem1) ->
  let written := run Format_RFC850 r op resp w in
  diag.HasError
    (diag.Append (resource.Diagnostics (fst written))
       (tfsdk.State_Get_diags (resource.State (fst written)))) = false ->
  Is.GetComponent (client r) (types.ValueString (PageID (decoded op)))
    (types.ValueString (types.StringPointerValue (Is.rID component))) rem1
    = (inl component, rem2) ->
  let refreshed :=
    Read r {| resource.ReadRequest_State := resource.State (fst written) |}
      (fst written) (snd written) in
  let st1 := tfsdk.State_Raw (resource.State (fst written)) in
  let st2 := tfsdk.State_Raw (resource.State (fst refreshed)) in
  (ID st2 = ID st1
   /\ UniqueEmail st2 = UniqueEmail st1
   /\ PageID st2 = PageID st1
   /\ Order st2 = Order st1
   /\ GroupID st2 = GroupID st1
   /\ Group st2 = Group st1
   /\ LastUpdated st2 = LastUpdated st1)
  /\ Grouped st2 =
       types.BoolValue
         (match Is.GroupName (Is.rGroup component) with Some _ => true | None => false end).
Proof.
  intros Hplan Hd Hp written. subst written.
  rewrite (run_client_ok _ _ _ _ _ _ _ _ _ Hd Hp).
  destruct op as [req|req|req|req]; try discriminate Hplan;
    intros Hd2 Hget;
    match goal with
    | |- context [Read r ?rq ?rs ?ww] =>
        rewrite (Read_ok rq rs ww component rem2 Hd2 Hget)
    end;
    simpl; repeat split.
Qed.

(** X7.  A successful [Create] or [Update] followed by a successful
    [Read] that fetches the same component: if the component repeats the
    name, description, status and show_uptime of the request and the plan
    held no unknown for them, the refresh changes none of these four: a
    service that stores what it is sent causes no drift. *)
Theorem refresh_after_write_no_drift
    (op : Operation) (resp : resource.Response) (w : World Remote Time)
    (component : Is.ComponentResponse) (rem1 rem2 : Remote) :
  from_plan op = true ->
  diag.HasError (after_decode op resp) = false ->
  perform (client r) (client_call op) (remote w) = (inl (Some component), rem1) ->
  echoes (item_of_plan (decoded op)) component ->
  configured_known (decoded op) = true ->
  let written := run Format_RFC850 r op resp w in
  diag.HasError
    (diag.Append (resource.Diagnostics (fst written))
       (tfsdk.State_Get_diags (resource.State (fst written)))) = false ->
  Is.GetComponent (client r) (types.ValueString (PageID (decoded op)))
    (types.ValueString (types.StringPointerValue (Is.rID component))) rem1
    = (inl component, rem2) ->
  let refreshed :=
    Read r {| resource.ReadRequest_State := resource.State (fst written) |}
      (fst written) (snd written) in
  let st1 := tfsdk.State_Raw (resource.State (fst written)) in
  let st2 := tfsdk.State_Raw (resource.State (fst refreshed)) in
  Name st2 = Name st1
  /\ Description st2 = Description st1
  /\ Status st2 = Status st1
  /\ ShowUptime st2 = ShowUptime st1.
Proof.
  intros Hplan Hd Hp [En [Ede [Est Esh]]] Hknown written. subst written.
  unfold configured_known in Hknown.
  repeat (apply andb_true_iff in Hknown; destruct Hknown as [Hknown ?]).
  repeat match goal with H : negb _ = true |- _ => apply negb_true_iff in H end.
  rewrite (run_client_ok _ _ _ _ _ _ _ _ _ Hd Hp).
  destruct op as [req|req|req|req]; try discriminate Hplan;
    intros Hd2 Hget;
    match goal with
    | |- context [Read r ?rq ?rs ?ww] =>
        rewrite (Read_ok rq rs ww component rem2 Hd2 Hget)
    end;
    simpl in *; rewrite En, Ede, Est, Esh;
    repeat split;
    auto using pointer_round_trip_String, pointer_round_trip_Bool.
Qed.

(** X8.  Reading twice is reading once: a second successful [Read] that
    fetches the same component writes the state the first one wrote. *)
Theorem read_is_idempotent
    (req : resource.ReadRequest) (resp : resource.Response) (w : World Remote Time)
    (component : Is.ComponentResponse) (rem1 rem2 : Remote) :
  let prior := tfsdk.State_Raw (resource.ReadRequest_State req) in
  let pageID := types.ValueString (PageID prior) in
  let id := types.ValueString (ID prior) in
  diag.HasError
    (diag.Append (resource.Diagnostics resp)
       (tfsdk.State_Get_diags (resource.ReadRequest_State req))) = false ->
  Is.GetComponent (client r) pageID id (remote w) = (inl component, rem1) ->
  let first := Read r req resp w in
  diag.HasError
    (diag.Append (resource.Diagnostics (fst first))
       (tfsdk.State_Get_diags (resource.State (fst first)))) = false ->
  Is.GetComponent (client r) pageID id rem1 = (inl component, rem2) ->
  let second :=
    Read r {| resource.ReadRequest_State := resource.State (fst first) |}
      (fst first) (snd first) in
  tfsdk.State_Raw (resource.State (fst second))
    = tfsdk.State_Raw (resource.State (fst first))
  /\ calls (snd second)
       = calls w ++ [Is.CallGetComponent pageID id; Is.CallGetComponent pageID id].
Proof.
  intros prior pageID id Hd Hget first. subst first prior pageID id.
  rewrite (Read_ok _ _ _ component rem1 Hd Hget).
  intros Hd2 Hget2.
  match goal with
  | |- context [Read r ?rq ?rs ?ww] =>
      rewrite (Read_ok rq rs ww component rem2 Hd2 Hget2)
  end.
  simpl.
  split; [reflexivity | now rewrite <- app_assoc].
Qed.

End Refresh.

Lemma refresh_after_write_keeps_computed_witness :
  let written :=
    run sample_format (answering sample_component)
      (OpCreate {| resource.CreateRequest_Plan := plan_of sample_plan |})
      (response_with null_model) sample_world in
  let refreshed :=
    Read (answering sample_component)
      {| resource.ReadRequest_State := resource.State (fst written) |}
      (fst written) (snd written) in
  let st1 := tfsdk.State_Raw (resource.State (fst written)) in
  let st2 := tfsdk.State_Raw (resource.State (fst refreshed)) in
  (ID st2 = ID st1
   /\ UniqueEmail st2 = UniqueEmail st1
   /\ PageID st2 = PageID st1
   /\ Order st2 = Order st1
   /\ GroupID st2 = GroupID st1
   /\ Group st2 = Group st1
   /\ LastUpdated st2 = LastUpdated st1)
  /\ Grouped st2 = types.BoolValue true.
Proof.
  exact (refresh_after_write_keeps_computed unit Z sample_format
           (answering sample_component)
           (OpCreate {| resource.CreateRequest_Plan := plan_of sample_plan |})
           (response_with null_model) sample_world sample_component tt tt
           eq_refl eq_refl eq_refl eq_refl eq_refl).
Defined.

Lemma refresh_after_write_no_drift_witness :
  let written :=
    run sample_format (answering sample_echo)
      (OpUpdate {| resource.UpdateRequest_Plan := plan_of sample_plan_grouped |})
      (response_with sample_state) sample_world in
  let refreshed :=
    Read (answering sample_echo)
      {| resource.ReadRequest_State := resource.State (fst written) |}
      (fst written) (snd written) in
  let st1 := tfsdk.State_Raw (resource.State (fst written)) in
  let st2 := tfsdk.State_Raw (resource.State (fst refreshed)) in
  Name st2 = Name st1
  /\ Description st2 = Description st1
  /\ Status st2 = Status st1
  /\ ShowUptime st2 = ShowUptime st1.
Proof.
  exact (refresh_after_write_no_drift unit Z sample_format
           (answering sample_echo)
           (OpUpdate {| resource.UpdateRequest_Plan := plan_of sample_plan_grouped |})
           (response_with sample_state) sample_world sample_echo tt tt
           eq_refl eq_refl eq_refl
           (conj eq_refl (conj eq_refl (conj eq_refl eq_refl)))
           eq_refl eq_refl eq_refl).
Defined.

Lemma read_is_idempotent_witness :
  let first :=
    Read (Time := Z) (answering sample_component)
      {| resource.ReadRequest_State := state_of sample_state |}
      (response_with sample_state) sample_world in
  let second :=
    Read (answering sample_component)
      {| resource.ReadRequest_State := resource.State (fst first) |}
      (fst first) (snd first) in
  tfsdk.State_Raw (resource.State (fst second))
    = tfsdk.State_Raw (resource.State (fst first))
  /\ calls (snd second)
       = [] ++ [Is.CallGetComponent "page-1" "cmp-7"; Is.CallGetComponent "page-1" "cmp-7"].
Proof.
  exact (read_is_idempotent unit Z (answering sample_component)
           {| resource.ReadRequest_State := state_of sample_state |}
           (response_with sample_state) sample_world sample_component tt tt
           eq_refl eq_refl eq_refl eq_refl).
Defined.

(** ** Edge values of the plan *)

(** X9.  [order] is optional and computed, so a plan that does not configure
    it holds an unknown: [Create] and [Update] then send the service a
    pointer to zero, not nil. *)
Theorem unknown_order_is_sent_as_zero
    (Remote Time : Type) (Format_RFC850 : Time -> string)
    (r : componentResource Remote) (op : Operation) (resp : resource.Response)
    (w : World Remote Time) :
  from_plan op = true ->
  diag.HasError (after_decode op resp) = false ->
  Order (decoded op) = types.Unknown ->
  exists (c : Is.Call) (item : Is.Component),
    calls (snd (run Format_RFC850 r op resp w)) = calls w ++ [c]
    /\ sent_item c = Some item
    /\ Is.Order item = Some 0%Z.
Proof.
  intros Hplan Hd Ho.
  exists (client_call op), (item_of_plan (decoded op)).
  split; [| split].
  - destruct (run_calls Remote Time Format_RFC850 r op resp w) as [H|H]; [| exact H].
    exfalso.
    case_eq (perform (client r) (client_call op) (remote w)); intros [c|e] rem' Hp.
    + rewrite (run_client_ok _ _ _ _ _ _ _ _ _ Hd Hp) in H. simpl in H.
      rewrite <- (app_nil_r (calls w)) in H at 2.
      apply app_inv_head in H. discriminate.
    + rewrite (run_client_error _ _ _ _ _ _ _ _ _ Hd Hp) in H. simpl in H.
      rewrite <- (app_nil_r (calls w)) in H at 2.
      apply app_inv_head in H. discriminate.
  - destruct op; try discriminate Hplan; reflexivity.
  - simpl. rewrite Ho. reflexivity.
Qed.

Lemma unknown_order_is_sent_as_zero_witness :
  exists (c : Is.Call) (item : Is.Component),
    calls (snd (run sample_format (answering sample_component)
                  (OpCreate {| resource.CreateRequest_Plan := plan_of sample_plan |})
                  (response_with null_model) sample_world)) = [] ++ [c]
    /\ sent_item c = Some item
    /\ Is.Order item = Some 0%Z.
Proof.
  exact (unknown_order_is_sent_as_zero unit Z sample_format
           (answering sample_component)
           (OpCreate {| resource.CreateRequest_Plan := plan_of sample_plan |})
           (response_with null_model) sample_world eq_refl eq_refl eq_refl).
Defined.

Lemma status_validator_five_In (s : string) :
  validate_status (types.Known s) = true -> In s componentStatuses.
Proof.
  rewrite validate_status_OneOf. simpl. unfold componentStatuses.
  rewrite !orb_true_iff, !String.eqb_eq. simpl. intuition congruence.
Qed.

(** X10.  A status that passed the validator and is not unknown is sent either
    as nil or as one of the five statuses: no other status reaches the
    service through [Create] or [Update]. *)
Theorem validated_status_is_sent_valid
    (Remote Time : Type) (Format_RFC850 : Time -> string)
    (r : componentResource Remote) (op : Operation) (resp : resource.Response)
    (w : World Remote Time) :
  from_plan op = true ->
  validate_status (Status (decoded op)) = true ->
  types.IsUnknown (Status (decoded op)) = false ->
  exists new : list Is.Call,
    calls (snd (run Format_RFC850 r op resp w)) = calls w ++ new
    /\ forall c item, In c new -> sent_item c = Some item ->
         Is.Status item = None
         \/ exists s, Is.Status item = Some s /\ In s componentStatuses.
Proof.
  intros Hplan Hv Hk.
  destruct (run_calls Remote Time Format_RFC850 r op resp w) as [H|H].
  - exists []. rewrite H, app_nil_r. split; [reflexivity | intros c item []].
  - exists [client_call op]. split; [exact H |].
    intros c item [Hc|[]] Hitem. subst c.
    apply sent_item_client_call in Hitem. subst item. simpl.
    destruct (Status (decoded op)) as [| |s]; simpl in *.
    + now left.
    + discriminate.
    + right. exists s. split; [reflexivity |].
      apply status_validator_five_In. exact Hv.
Qed.

Lemma validated_status_is_sent_valid_witness :
  exists new : list Is.Call,
    calls (snd (run sample_format (failing "boom")
                  (OpUpdate {| resource.UpdateRequest_Plan := plan_of sample_plan |})
                  (response_with sample_state) sample_world)) = [] ++ new
    /\ forall c item, In c new -> sent_item c = Some item ->
         Is.Status item = None
         \/ exists s, Is.Status item = Some s /\ In s componentStatuses.
Proof.
  exact (validated_status_is_sent_valid unit Z sample_format (failing "boom")
           (OpUpdate {| resource.UpdateRequest_Plan := plan_of sample_plan |})
           (response_with sample_state) sample_world eq_refl eq_refl eq_refl).
Defined.

(** C4.  The validator of [status] accepts a configured string exactly
    when it is one of OPERATIONAL, UNDERMAINTENANCE, DEGRADEDPERFORMANCE,
    PARTIALOUTAGE, MAJOROUTAGE, every other string being rejected; so a
    [Create] or [Update] whose plan passed this validation with its
    status resolved (not unknown) has a null status or one of the five,
    and every request it sends carries nil or one of the five. *)
Theorem status_validator_accepts_the_five :
  (forall s : string,
      validate_status (types.StringValue s) = true
      <-> (s = "OPERATIONAL" \/ s = "UNDERMAINTENANCE" \/ s = "DEGRADEDPERFORMANCE"
           \/ s = "PARTIALOUTAGE" \/ s = "MAJOROUTAGE")%string)
  /\ (forall (Remote Time : Type) (Format_RFC850 : Time -> string)
             (r : componentResource Remote) (op : Operation) (resp : resource.Response)
             (w : World Remote Time),
         from_plan op = true ->
         validate_status (Status (decoded op)) = true ->
         types.IsUnknown (Status (decoded op)) = false ->
         let five s :=
           (s = "OPERATIONAL" \/ s = "UNDERMAINTENANCE" \/ s = "DEGRADEDPERFORMANCE"
            \/ s = "PARTIALOUTAGE" \/ s = "MAJOROUTAGE")%string in
         (Status (decoded op) = types.Null
          \/ exists s, Status (decoded op) = types.StringValue s /\ five s)
         /\ exists new : list Is.Call,
              calls (snd (run Format_RFC850 r op resp w)) = calls w ++ new
              /\ forall c item, In c new -> sent_item c = Some item ->
                   Is.Status item = None
                   \/ exists s, Is.Status item = Some s /\ five s).
Proof.
  assert (Hiff : forall s : string,
             validate_status (types.StringValue s) = true
             <-> (s = "OPERATIONAL" \/ s = "UNDERMAINTENANCE" \/ s = "DEGRADEDPERFORMANCE"
                  \/ s = "PARTIALOUTAGE" \/ s = "MAJOROUTAGE")%string).
  { intro s. rewrite validate_status_OneOf.
    unfold types.StringValue, componentStatuses. simpl.
    rewrite !orb_true_iff, !String.eqb_eq. intuition congruence. }
  split; [exact Hiff |].
  intros Remote Time F r op resp w Hplan Hv Hk five.
  assert (Hst : Status (decoded op) = types.Null
                \/ exists s, Status (decoded op) = types.StringValue s /\ five s).
  { destruct (Status (decoded op)) as [| |s].
    - now left.
    - discriminate Hk.
    - right. exists s. split; [reflexivity | now apply Hiff]. }
  split; [exact Hst |].
  destruct (run_calls Remote Time F r op resp w) as [H|H].
  - exists []. rewrite H, app_nil_r. split; [reflexivity | intros c item []].
  - exists [client_call op]. split; [exact H |].
    intros c item [Hc|[]] Hitem. subst c.
    apply sent_item_client_call in Hitem. subst item. simpl.
    destruct Hst as [E | [s [E Hs]]]; rewrite E; simpl.
    + now left.
    + right. now exists s.
Qed.

Lemma status_validator_accepts_the_five_witness :
  let op := OpCreate {| resource.CreateRequest_Plan := plan_of sample_plan |} in
  let five s :=
    (s = "OPERATIONAL" \/ s = "UNDERMAINTENANCE" \/ s = "DEGRADEDPERFORMANCE"
     \/ s = "PARTIALOUTAGE" \/ s = "MAJOROUTAGE")%string in
  (Status (decoded op) = types.Null
   \/ exists s, Status (decoded op) = types.StringValue s /\ five s)
  /\ exists new : list Is.Call,
       calls (snd (run sample_format (answering sample_component) op
                     (response_with null_model) sample_world)) = [] ++ new
       /\ forall c item, In c new -> sent_item c = Some item ->
            Is.Status item = None
            \/ exists s, Is.Status item = Some s /\ five s.
Proof.
  intros op five.
  exact (proj2 status_validator_accepts_the_five unit Z sample_format
           (answering sample_component) op (response_with null_model) sample_world
           eq_refl eq_refl eq_refl).
Defined.

(** ** Import followed by Read *)

(** X11.  [ImportState] sets only id, so on a state whose page_id is null the
    [Read] that follows asks the service for the imported component under
    the empty page identifier. *)
Theorem read_after_import_has_no_page_id
    (Remote Time : Type) (r : componentResource Remote)
    (req : resource.ImportStateRequest) (resp : resource.Response)
    (w : World Remote Time) :
  PageID (tfsdk.State_Raw (resource.State resp)) = types.Null ->
  diag.HasError
    (diag.Append (resource.Diagnostics resp)
       (tfsdk.State_Get_diags (resource.State resp))) = false ->
  let imported := ImportState req resp in
  calls (snd (Read r {| resource.ReadRequest_State := resource.State imported |}
                imported w))
    = calls w ++ [Is.CallGetComponent "" (resource.ImportStateRequest_ID req)].
Proof.
  intros Hpage Hd imported. subst imported.
  unfold ImportState, ImportStatePassthroughID, Read, bind, invoke, ret. simpl.
  rewrite Hd, Hpage. simpl.
  destruct (Is.GetComponent (client r) _ _ (remote w)) as [[c|e] rem]; reflexivity.
Qed.

Lemma read_after_import_has_no_page_id_witness :
  let imported :=
    ImportState {| resource.ImportStateRequest_ID := "cmp-7" |} (response_with null_model) in
  calls (snd (Read (Time := Z) (answering sample_component)
                {| resource.ReadRequest_State := resource.State imported |}
                imported sample_world))
    = [] ++ [Is.CallGetComponent "" "cmp-7"].
Proof.
  exact (read_after_import_has_no_page_id unit Z (answering sample_component)
           {| resource.ImportStateRequest_ID := "cmp-7" |} (response_with null_model)
           sample_world eq_refl eq_refl).
Defined.

(** ** The schema against the model *)

(** X12.  The schema declares an attribute for exactly the twelve tagged
    fields of [componentResourceModel], each of the kind of value the
    field holds, so decoding a plan or state into the model finds every
    field; and no attribute name is declared twice. *)
Theorem schema_matches_model :
  (forall name : string,
      option_map schema.Type_ (schema.lookup name (schema.Attributes Schema))
        = field_type name componentResourceModel_fields)
  /\ NoDup (map fst (schema.Attributes Schema))
  /\ length (schema.Attributes Schema) = length componentResourceModel_fields.
Proof.
  split; [| split].
  - intro name. unfold Schema, componentResourceModel_fields.
    cbn [schema.lookup field_type schema.Attributes].
    repeat match goal with
           | |- context [String.eqb ?k name] =>
               destruct (String.eqb_spec k name) as [<-|_];
               [vm_compute; reflexivity |]
           end.
    reflexivity.
  - simpl.
    repeat (constructor; [simpl; intuition discriminate |]).
    constructor.
  - reflexivity.
Qed.

(** ** Metadata *)

Lemma length_append (a b : string) :
  String.length (a ++ b) = String.length a + String.length b.
Proof.
  induction a as [|ch a IH]; simpl; [reflexivity | now rewrite IH].
Qed.

Lemma append_cancel_r (a b suffix : string) :
  (a ++ suffix)%string = (b ++ suffix)%string -> a = b.
Proof.
  revert b. induction a as [|ch a IH]; intros [|ch' b] H; simpl in H.
  - reflexivity.
  - apply (f_equal String.length) in H. simpl in H. rewrite length_append in H.
    exfalso. revert H. generalize (String.length suffix) (String.length b).
    intros n m H. apply (f_equal (fun x => x - n)) in H.
    rewrite Nat.sub_diag in H.
    replace (S (m + n) - n) with (S m) in H; [discriminate |].
    rewrite <- Nat.add_succ_l. now rewrite Nat.add_sub.
  - apply (f_equal String.length) in H. simpl in H. rewrite length_append in H.
    exfalso. revert H. generalize (String.length suffix) (String.length a).
    intros n m H. apply (f_equal (fun x => x - n)) in H.
    rewrite Nat.sub_diag in H.
    replace (S (m + n) - n) with (S m) in H; [discriminate |].
    rewrite <- Nat.add_succ_l. now rewrite Nat.add_sub.
  - inversion H. f_equal. now apply IH.
Qed.

(** X13.  The resource type name is the provider's type name followed
    by "_component", whatever the response held before; so it is ten
    characters longer, and two providers get the same resource type name
    only if they have the same type name. *)
Theorem Metadata_type_name (req1 req2 : MetadataRequest) (resp1 resp2 : MetadataResponse) :
  TypeName (Metadata req1 resp1) = (ProviderTypeName req1 ++ "_component")%string
  /\ String.length (TypeName (Metadata req1 resp1))
       = String.length (ProviderTypeName req1) + 10
  /\ (TypeName (Metadata req1 resp1) = TypeName (Metadata req2 resp2)
      <-> ProviderTypeName req1 = ProviderTypeName req2).
Proof.
  unfold Metadata. simpl. split; [reflexivity | split].
  - now rewrite length_append.
  - split; intro H.
    + now apply append_cancel_r in H.
    + now rewrite H.
Qed.

(** ** Configure *)

(** X14.  After any sequence of [Configure] calls that does not panic, the
    resource holds the client of the last call whose provider data was
    not nil, or the client it had if there was none: a nil provider data
    never clears the client.  The sequence panics exactly when some
    provider data is not a client. *)
Theorem Configure_keeps_last_client
    (Remote : Type) (r : resourceValue Remote) (datas : list (ProviderData Remote)) :
  Configure_all r datas
    = if existsb is_other datas then None
      else Some {| client_pointer := last_client (client_pointer r) datas |}.
Proof.
  revert r. induction datas as [|data rest IH]; intro r.
  - destruct r. reflexivity.
  - destruct data as [|c|]; simpl.
    + apply IH.
    + rewrite IH. reflexivity.
    + reflexivity.
Qed.
